(** * AI Hijabi Model Studio API: the record shapes of [schemas.py] and the
      HTTP handlers of [main.py], embedded as Rocq functions.

    Conventions of the embedding.
    - A Python value that travels through a [Dict[str, Any]], a JSON request
      body or a stored document is a [Value]; a [dict] with string keys is a
      [gmap string Value].
    - A Python [str] is a [string] holding its UTF-8 encoding (so it has
      one: no lone surrogate); slicing counts code points ([str_take]).
    - The module-level store handle [db] is passed to every handler and
      returned by the ones that write ([option Store]: [None] is the
      uninitialised handle).
    - A raised exception is the left injection of a sum. *)

From stdpp Require Import gmap strings list fin_maps pretty.

#[local] Set Warnings "-register-all".
#[local] Open Scope string_scope.

(** ** Python values *)

Inductive Value : Type :=
  | VNull
  | VBool (b : bool)
  | VInt (z : Z)
  | VFloat (bits : N)       (* an IEEE-754 binary64, kept as its bit pattern *)
  | VStr (s : string)
  | VList (l : list Value)
  | VDict (d : gmap string Value)
  | VObjectId (oid : N).    (* the store's raw identifier type *)

Abbreviation dict := (gmap string Value).

(** A float that is neither NaN nor an infinity: its exponent bits are not
    all set. *)
Definition float_is_finite (bits : N) : bool :=
  negb (N.land (N.shiftr bits 52) 2047 =? 2047)%N.

(** What [json.dumps(..., allow_nan=False)] renders: every value but a NaN,
    an infinity and a raw identifier, at any depth.  The framework raises a
    [ValueError] on the others. *)
Fixpoint encodable (v : Value) : bool :=
  match v with
  | VNull | VBool _ | VInt _ | VStr _ => true
  | VFloat bits => float_is_finite bits
  | VList l => forallb encodable l
  | VDict d => map_fold (λ _ x acc, encodable x && acc) true d
  | VObjectId _ => false
  end.

(** Library behaviour the repository relies on but does not define: Python's
    builtin [str()], and the lax-mode coercions pydantic applies when an
    [int] or [bool] field receives a value of another type.  They are kept
    abstract; every result below holds whatever they are. *)
Class Runtime := {
  py_str : Value -> string;
  lax_int : Value -> option Z;
  lax_bool : Value -> option bool;
}.

(** A byte that continues a UTF-8 sequence: [10xxxxxx]. *)
Definition is_continuation (c : Ascii.ascii) : bool :=
  match c with
  | Ascii.Ascii _ _ _ _ _ _ b6 b7 => b7 && negb b6
  end.

(** [s[:n]] on a [str]. *)
Fixpoint str_take (n : nat) (s : string) : string :=
  match s with
  | EmptyString => EmptyString
  | String c s' =>
      if is_continuation c then String c (str_take n s')
      else match n with
           | O => EmptyString
           | S n' => String c (str_take n' s')
           end
  end.

(** Truth value of [os.getenv(k)]: [None] and the empty string are falsy. *)
Definition truthy (o : option string) : bool :=
  match o with
  | Some s => negb (String.eqb s "")
  | None => false
  end.

(** [o or dflt] for [o : Optional[str]]. *)
Definition str_or (o : option string) (dflt : string) : string :=
  if truthy o then default dflt o else dflt.

(** [d or {}] for a [dict]: an empty dict is falsy. *)
Definition dict_or_empty (d : dict) : dict :=
  if decide (size d = 0) then ∅ else d.

Definition of_opt_str (o : option string) : Value :=
  match o with
  | Some s => VStr s
  | None => VNull
  end.

(** ** Field validators (pydantic) *)

Definition str_ (v : Value) : option string :=
  match v with
  | VStr s => Some s
  | _ => None
  end.

Definition int_ {rt : Runtime} (v : Value) : option Z :=
  match v with
  | VInt z => Some z
  | _ => lax_int v
  end.

Definition bool_ {rt : Runtime} (v : Value) : option bool :=
  match v with
  | VBool b => Some b
  | _ => lax_bool v
  end.

(** [Dict[str, Any]] *)
Definition dict_any (v : Value) : option dict :=
  match v with
  | VDict d => Some d
  | _ => None
  end.

(** [List[T]] *)
Definition list_of {A} (elt : Value -> option A) (v : Value) : option (list A) :=
  match v with
  | VList l => mapM elt l
  | _ => None
  end.

(** [Optional[T]] *)
Definition optional {A} (elt : Value -> option A) (v : Value) : option (option A) :=
  match v with
  | VNull => Some None
  | _ => Some <$> elt v
  end.

(** [Literal[...]] over strings: the value itself, when it is one of them. *)
Definition literal (allowed : list string) (v : Value) : option string :=
  match v with
  | VStr s => if bool_decide (s ∈ allowed) then Some s else None
  | _ => None
  end.

(** A field declared without a default. *)
Definition required {A} (d : dict) (k : string) (val : Value -> option A) : option A :=
  d !! k ≫= val.

(** A field declared with a default (or a default factory): the default is
    taken as it is, only a supplied value is validated. *)
Definition defaulted {A} (d : dict) (k : string) (val : Value -> option A) (dflt : A)
  : option A :=
  match d !! k with
  | Some v => val v
  | None => Some dflt
  end.

(** ** Declared shapes (pydantic) *)

(** The annotation of a field. *)
Inductive FieldType :=
  | TStr
  | TInt
  | TBool
  | TDictAny                          (* Dict[str, Any] *)
  | TLiteral (allowed : list string)  (* Literal[...] *)
  | TOptional (t : FieldType)         (* Optional[T] *)
  | TList (t : FieldType).            (* List[T] *)

(** One line of a class body: the name, the annotation and the default as it
    serialises; [None] marks a required field. *)
Record Field := mkField {
  fname : string;
  ftype : FieldType;
  fdefault : option Value;
}.

(** The validated value of a field, as [model_dump] gives it back. *)
Fixpoint check {rt : Runtime} (t : FieldType) (v : Value) : option Value :=
  match t with
  | TStr => VStr <$> str_ v
  | TInt => VInt <$> int_ v
  | TBool => VBool <$> bool_ v
  | TDictAny => VDict <$> dict_any v
  | TLiteral allowed => VStr <$> literal allowed v
  | TOptional t' =>
      match v with
      | VNull => Some VNull
      | _ => check t' v
      end
  | TList t' =>
      match v with
      | VList l => VList <$> mapM (check t') l
      | _ => None
      end
  end.

(** The [input] entries of the errors validation reports for a field: the
    value itself, or inside a list the elements that fail. *)
Fixpoint rejected {rt : Runtime} (t : FieldType) (v : Value) : list Value :=
  match t with
  | TOptional t' =>
      match v with
      | VNull => []
      | _ => rejected t' v
      end
  | TList t' =>
      match v with
      | VList l => flat_map (rejected t') l
      | _ => [v]
      end
  | _ =>
      match check t v with
      | Some _ => []
      | None => [v]
      end
  end.

(** The validated value of a declared field of an object: the supplied
    value checked, or the default as it is. *)
Definition field_value {rt : Runtime} (f : Field) (d : dict) : option Value :=
  match d !! fname f with
  | Some v => check (ftype f) v
  | None => fdefault f
  end.

(** The [input] entries of the errors of a declared field: a missing
    required field reports the whole object. *)
Definition field_errors {rt : Runtime} (f : Field) (d : dict) : list Value :=
  match d !! fname f with
  | Some v => rejected (ftype f) v
  | None =>
      match fdefault f with
      | Some _ => []
      | None => [VDict d]
      end
  end.

(** Validation of an object against the declared fields, in order. *)
Fixpoint validate_fields {rt : Runtime} (fs : list Field) (d : dict) : option dict :=
  match fs with
  | [] => Some ∅
  | f :: fs' =>
      v ← field_value f d;
      rest ← validate_fields fs' d;
      Some (<[fname f := v]> rest)
  end.

(** The [input] entries of all errors of an object: validation reports the
    errors of every field, not the first one only. *)
Definition shape_errors {rt : Runtime} (fs : list Field) (d : dict) : list Value :=
  flat_map (λ f, field_errors f d) fs.

(** The same for a request body, which need not be an object. *)
Definition body_errors {rt : Runtime} (fs : list Field) (body : Value) : list Value :=
  match body with
  | VDict d => shape_errors fs d
  | _ => [body]
  end.

(** What every [BaseModel] subclass offers to the handlers: its declared
    fields, construction from keyword arguments (or a JSON object) with
    validation, and serialisation. *)
Class BaseModel (T : Type) := {
  model_shape : list Field;
  model_validate : dict -> option T;
  model_dump : T -> dict;
}.
#[global] Arguments model_shape T {_}.

(** The keys of [model_json_schema()["properties"]]: the declared field
    names, in declaration order. *)
Definition model_fields (T : Type) `{BaseModel T} : list string :=
  fname <$> model_shape T.

(** ** schemas.py *)

Module Model.
Record t := mk {
  name : string;
  description : option string;
  identity_seed : option string;
  tags : list string;
  style_preset : option string;
  face_embeddings : option (list string);
  consistency_profile : dict;
}.

Definition fields : list Field :=
  [ mkField "name" TStr None;
    mkField "description" (TOptional TStr) (Some VNull);
    mkField "identity_seed" (TOptional TStr) (Some VNull);
    mkField "tags" (TList TStr) (Some (VList []));
    mkField "style_preset" (TOptional TStr) (Some VNull);
    mkField "face_embeddings" (TOptional (TList TStr)) (Some VNull);
    mkField "consistency_profile" TDictAny (Some (VDict ∅)) ].

Definition validate (d : dict) : option t :=
  name ← required d "name" str_;
  description ← defaulted d "description" (optional str_) None;
  identity_seed ← defaulted d "identity_seed" (optional str_) None;
  tags ← defaulted d "tags" (list_of str_) [];
  style_preset ← defaulted d "style_preset" (optional str_) None;
  face_embeddings ← defaulted d "face_embeddings" (optional (list_of str_)) None;
  consistency_profile ← defaulted d "consistency_profile" dict_any ∅;
  Some (mk name description identity_seed tags style_preset face_embeddings
           consistency_profile).

Definition dump (m : t) : dict :=
  {[ "name" := VStr (name m);
     "description" := of_opt_str (description m);
     "identity_seed" := of_opt_str (identity_seed m);
     "tags" := VList (VStr <$> tags m);
     "style_preset" := of_opt_str (style_preset m);
     "face_embeddings" :=
       match face_embeddings m with
       | Some l => VList (VStr <$> l)
       | None => VNull
       end;
     "consistency_profile" := VDict (consistency_profile m) ]}.

#[global] Instance model : BaseModel t := {|
  model_shape := fields;
  model_validate := validate;
  model_dump := dump;
|}.
End Model.

Module Pipeline.
Record t := mk {
  name : string;
  version : string;
  is_active : bool;
  nodes : list dict;
  edges : list dict;
}.

Definition fields : list Field :=
  [ mkField "name" TStr None;
    mkField "version" TStr (Some (VStr "1.0"));
    mkField "is_active" TBool (Some (VBool true));
    mkField "nodes" (TList TDictAny) (Some (VList []));
    mkField "edges" (TList TDictAny) (Some (VList [])) ].

Definition validate {rt : Runtime} (d : dict) : option t :=
  name ← required d "name" str_;
  version ← defaulted d "version" str_ "1.0";
  is_active ← defaulted d "is_active" bool_ true;
  nodes ← defaulted d "nodes" (list_of dict_any) [];
  edges ← defaulted d "edges" (list_of dict_any) [];
  Some (mk name version is_active nodes edges).

Definition dump (p : t) : dict :=
  {[ "name" := VStr (name p);
     "version" := VStr (version p);
     "is_active" := VBool (is_active p);
     "nodes" := VList (VDict <$> nodes p);
     "edges" := VList (VDict <$> edges p) ]}.

#[global] Instance model {rt : Runtime} : BaseModel t := {|
  model_shape := fields;
  model_validate := validate;
  model_dump := dump;
|}.
End Pipeline.

Module Dataset.
Definition status_values : list string := ["idle"; "building"; "ready"; "failed"].

Record t := mk {
  model_id : option string;
  title : string;
  status : string;
  size : Z;
  items : list dict;
}.

Definition fields : list Field :=
  [ mkField "model_id" (TOptional TStr) (Some VNull);
    mkField "title" TStr None;
    mkField "status" (TLiteral status_values) (Some (VStr "idle"));
    mkField "size" TInt (Some (VInt 0));
    mkField "items" (TList TDictAny) (Some (VList [])) ].

Definition validate {rt : Runtime} (d : dict) : option t :=
  model_id ← defaulted d "model_id" (optional str_) None;
  title ← required d "title" str_;
  status ← defaulted d "status" (literal status_values) "idle";
  size ← defaulted d "size" int_ 0%Z;
  items ← defaulted d "items" (list_of dict_any) [];
  Some (mk model_id title status size items).

Definition dump (x : t) : dict :=
  {[ "model_id" := of_opt_str (model_id x);
     "title" := VStr (title x);
     "status" := VStr (status x);
     "size" := VInt (size x);
     "items" := VList (VDict <$> items x) ]}.

#[global] Instance model {rt : Runtime} : BaseModel t := {|
  model_shape := fields;
  model_validate := validate;
  model_dump := dump;
|}.
End Dataset.

Module Job.
Definition type_values : list string :=
  ["face"; "fullbody"; "angles360"; "expression"; "background"; "dress"; "dataset"].
Definition status_values : list string := ["queued"; "running"; "succeeded"; "failed"].

Record t := mk {
  type : string;
  model_id : option string;
  pipeline_id : option string;
  params : dict;
  status : string;
  progress : Z;
  output : list dict;
}.

Definition fields : list Field :=
  [ mkField "type" (TLiteral type_values) None;
    mkField "model_id" (TOptional TStr) (Some VNull);
    mkField "pipeline_id" (TOptional TStr) (Some VNull);
    mkField "params" TDictAny (Some (VDict ∅));
    mkField "status" (TLiteral status_values) (Some (VStr "queued"));
    mkField "progress" TInt (Some (VInt 0));
    mkField "output" (TList TDictAny) (Some (VList [])) ].

Definition validate {rt : Runtime} (d : dict) : option t :=
  type ← required d "type" (literal type_values);
  model_id ← defaulted d "model_id" (optional str_) None;
  pipeline_id ← defaulted d "pipeline_id" (optional str_) None;
  params ← defaulted d "params" dict_any ∅;
  status ← defaulted d "status" (literal status_values) "queued";
  progress ← defaulted d "progress" int_ 0%Z;
  output ← defaulted d "output" (list_of dict_any) [];
  Some (mk type model_id pipeline_id params status progress output).

Definition dump (j : t) : dict :=
  {[ "type" := VStr (type j);
     "model_id" := of_opt_str (model_id j);
     "pipeline_id" := of_opt_str (pipeline_id j);
     "params" := VDict (params j);
     "status" := VStr (status j);
     "progress" := VInt (progress j);
     "output" := VList (VDict <$> output j) ]}.

#[global] Instance model {rt : Runtime} : BaseModel t := {|
  model_shape := fields;
  model_validate := validate;
  model_dump := dump;
|}.
End Job.

(** ** The document store (database.py) *)

(** Modelled from the spec: [database.py] is not among the sources.  Section
    4.1 and section 7 name two failures of a store call: the store was never
    initialised, or an underlying I/O fault occurred. *)
Inductive StoreFault :=
  | StoreUnavailable
  | StoreError (msg : string).

(** Modelled from the spec: the connectivity of an initialised store; a call
    made while it is [Down] meets an I/O fault with that message. *)
Inductive Link :=
  | Up
  | Down (msg : string).

(** Modelled from the spec: an initialised store holds named collections of
    documents, in insertion order, and hands out fresh identifiers. *)
Record Store := mkStore {
  link : Link;
  collections : gmap string (list dict);
  next_oid : N;
}.

(** Modelled from the spec: the process-wide handle [db] of [database.py],
    [None] when the connection configuration was missing. *)
Abbreviation DB := (option Store).

(** Modelled from the spec: [insert(collection, record) -> identifier] of
    section 4.1.  The serialised record is stored under a fresh raw
    identifier (field [_id]) and that identifier is returned as a string;
    [StoreUnavailable] on an uninitialised store, [StoreError] on a fault. *)
Definition create_document {rt : Runtime} {T} `{BaseModel T}
    (db : DB) (collection_name : string) (data : T) : StoreFault + (DB * string) :=
  match db with
  | None => inl StoreUnavailable
  | Some st =>
      match link st with
      | Down msg => inl (StoreError msg)
      | Up =>
          let oid := VObjectId (next_oid st) in
          let doc := <["_id" := oid]> (model_dump data) in
          let old := default [] (collections st !! collection_name) in
          inr (Some (mkStore Up
                       (<[collection_name := (old ++ [doc])%list]> (collections st))
                       (N.succ (next_oid st))),
               py_str oid)
      end
  end.

(** Modelled from the spec: [findAll(collection) -> sequence] of section
    4.1.  The records of the collection, as stored (so with their raw
    identifier field); the empty sequence on an empty collection or an
    uninitialised store; a fault during the call is a [StoreError], as for
    every store call (section 7). *)
Definition get_documents (db : DB) (collection_name : string)
  : StoreFault + list dict :=
  match db with
  | None => inr []
  | Some st =>
      match link st with
      | Down msg => inl (StoreError msg)
      | Up => inr (default [] (collections st !! collection_name))
      end
  end.

(** Modelled from the spec: [listCollectionNames()] of section 4.1, a method
    of the initialised handle; it raises when connectivity is lost. *)
Definition list_collection_names (st : Store) : string + list string :=
  match link st with
  | Down msg => inl msg
  | Up => inr (map_to_list (collections st)).*1
  end.

(** ** main.py *)

(** What is raised while a request is served: by the store, by a model
    constructor, or by the framework when it renders a response body that
    JSON cannot hold. *)
Inductive Exn :=
  | StoreExn (e : StoreFault)
  | ValidationError
  | EncodeError.

#[global] Instance exn_bind : MBind (sum Exn) := λ A B f x,
  match x with
  | inl e => inl e
  | inr a => f a
  end.

Definition store_call {A} (x : StoreFault + A) : Exn + A :=
  match x with
  | inl e => inl (StoreExn e)
  | inr a => inr a
  end.

Definition read_root : dict :=
  {[ "message" := VStr "AI Hijabi Model Studio API is running" ]}.

(** *** GET /test *)

(** The body of [test_database] mutates the local [response] and may raise;
    a statement is a function from the response so far to the response after
    it and either the message of the exception raised or a result. *)
Definition Stmt (A : Type) : Type := dict -> dict * (string + A).

Definition ret {A} (a : A) : Stmt A := λ r, (r, inr a).

Definition bind {A B} (m : Stmt A) (k : A -> Stmt B) : Stmt B := λ r,
  match m r with
  | (r', inl e) => (r', inl e)
  | (r', inr a) => k a r'
  end.

(** [response[k] = v] *)
Definition setitem (k : string) (v : Value) : Stmt unit := λ r, (<[k := v]> r, inr tt).

(** A call that returns or raises. *)
Definition call {A} (x : string + A) : Stmt A := λ r, (r, x).

(** [try: body  except Exception as e: handler e] *)
Definition try_except {A} (body : Stmt A) (handler : string -> Stmt A) : Stmt A := λ r,
  match body r with
  | (r', inl e) => handler e r'
  | (r', inr a) => (r', inr a)
  end.

Declare Scope stmt_scope.
Delimit Scope stmt_scope with stmt.
Notation "x <- m ;; k" := (bind m (λ x, k))
  (at level 100, m at next level, right associativity) : stmt_scope.
Notation "m ;; k" := (bind m (λ _, k))
  (at level 100, right associativity) : stmt_scope.

(** [os.environ] *)
Abbreviation environ := (gmap string string).

Definition test_database_init : dict :=
  {[ "backend" := VStr "✅ Running";
     "database" := VStr "❌ Not Available";
     "database_url" := VStr "❌ Not Set";
     "database_name" := VStr "❌ Not Set";
     "connection_status" := VStr "Not Connected";
     "collections" := VList [] ]}.

Definition test_database_body (db : DB) (env : environ) : Stmt unit :=
  (try_except
     (match db with
      | Some st =>
          setitem "database" (VStr "✅ Available");;
          setitem "database_url"
            (VStr (if truthy (env !! "DATABASE_URL") then "✅ Set" else "❌ Not Set"));;
          setitem "database_name" (VStr (str_or (env !! "DATABASE_NAME") "❌ Not Set"));;
          setitem "connection_status" (VStr "Connected");;
          try_except
            (collections <- call (list_collection_names st);;
             setitem "collections" (VList (VStr <$> take 10 collections));;
             setitem "database" (VStr "✅ Connected & Working"))
            (λ e, setitem "database"
                    (VStr ("⚠️ Connected but Error: " ++ str_take 80 e)))
      | None =>
          setitem "database" (VStr "⚠️ Available but not initialized")
      end)
     (λ e, setitem "database" (VStr ("❌ Error: " ++ str_take 80 e))))%stmt.

(** The handler returns [response], unless an exception escapes. *)
Definition test_database (db : DB) (env : environ) : string + dict :=
  match test_database_body db env test_database_init with
  | (response, inr _) => inr response
  | (_, inl e) => inl e
  end.

(** *** GET /schema *)

Module SchemaResponse.
Record t := mk {
  collections : list dict;
}.

Definition fields : list Field :=
  [ mkField "collections" (TList TDictAny) None ].

Definition validate (d : dict) : option t :=
  collections ← required d "collections" (list_of dict_any);
  Some (mk collections).

Definition dump (r : t) : dict :=
  {[ "collections" := VList (VDict <$> collections r) ]}.

#[global] Instance model : BaseModel t := {|
  model_shape := fields;
  model_validate := validate;
  model_dump := dump;
|}.
End SchemaResponse.

Definition descriptor (name : string) (fields : list string) : Value :=
  VDict {[ "name" := VStr name; "fields" := VList (VStr <$> fields) ]}.

Definition get_schema {rt : Runtime} : dict :=
  {[ "collections" :=
       VList [ descriptor "model" (model_fields Model.t);
               descriptor "pipeline" (model_fields Pipeline.t);
               descriptor "dataset" (model_fields Dataset.t);
               descriptor "job" (model_fields Job.t) ] ]}.

(** *** CRUD *)

(** The loop body shared by the three listing handlers:
    [if "_id" in d: d["id"] = str(d.pop("_id"))]. *)
Definition rename_id {rt : Runtime} (d : dict) : dict :=
  match d !! "_id" with
  | Some raw => <["id" := VStr (py_str raw)]> (delete "_id" d)
  | None => d
  end.

Definition items_of (docs : list dict) : dict :=
  {[ "items" := VList (VDict <$> docs) ]}.

Definition create_model {rt : Runtime} (db : DB) (payload : Model.t) : Exn + (DB * dict) :=
  '(db', inserted_id) ← store_call (create_document db "model" payload);
  inr (db', {[ "id" := VStr inserted_id ]}).

Definition list_models {rt : Runtime} (db : DB) : Exn + dict :=
  docs ← store_call (get_documents db "model");
  inr (items_of (rename_id <$> docs)).

Definition create_pipeline {rt : Runtime} (db : DB) (payload : Pipeline.t)
  : Exn + (DB * dict) :=
  '(db', inserted_id) ← store_call (create_document db "pipeline" payload);
  inr (db', {[ "id" := VStr inserted_id ]}).

Definition list_pipelines {rt : Runtime} (db : DB) : Exn + dict :=
  docs ← store_call (get_documents db "pipeline");
  inr (items_of (rename_id <$> docs)).

Definition create_job {rt : Runtime} (db : DB) (payload : Job.t) : Exn + (DB * dict) :=
  '(db', inserted_id) ← store_call (create_document db "job" payload);
  inr (db', {[ "id" := VStr inserted_id; "status" := VStr (Job.status payload) ]}).

Definition list_jobs {rt : Runtime} (db : DB) : Exn + dict :=
  docs ← store_call (get_documents db "job");
  inr (items_of (rename_id <$> docs)).

(** *** POST /generate *)

Module GenerateRequest.
Record t := mk {
  model_id : option string;
  pipeline_id : option string;
  task : string;
  promptless : bool;
  params : dict;
}.

Definition fields : list Field :=
  [ mkField "model_id" (TOptional TStr) (Some VNull);
    mkField "pipeline_id" (TOptional TStr) (Some VNull);
    mkField "task" TStr None;
    mkField "promptless" TBool (Some (VBool true));
    mkField "params" TDictAny (Some (VDict ∅)) ].

Definition validate {rt : Runtime} (d : dict) : option t :=
  model_id ← defaulted d "model_id" (optional str_) None;
  pipeline_id ← defaulted d "pipeline_id" (optional str_) None;
  task ← required d "task" str_;
  promptless ← defaulted d "promptless" bool_ true;
  params ← defaulted d "params" dict_any ∅;
  Some (mk model_id pipeline_id task promptless params).

Definition dump (r : t) : dict :=
  {[ "model_id" := of_opt_str (model_id r);
     "pipeline_id" := of_opt_str (pipeline_id r);
     "task" := VStr (task r);
     "promptless" := VBool (promptless r);
     "params" := VDict (params r) ]}.

#[global] Instance model {rt : Runtime} : BaseModel t := {|
  model_shape := fields;
  model_validate := validate;
  model_dump := dump;
|}.
End GenerateRequest.

Definition generate_tasks : list string :=
  ["face"; "fullbody"; "angles360"; "expression"; "background"; "dress"].

(** [req.task if req.task in [...] else "dataset"] *)
Definition generate_type (req : GenerateRequest.t) : string :=
  if bool_decide (GenerateRequest.task req ∈ generate_tasks)
  then GenerateRequest.task req else "dataset".

(** The keyword arguments of the [JobSchema(...)] call. *)
Definition generate_kwargs (req : GenerateRequest.t) : dict :=
  {[ "type" := VStr (generate_type req);
     "model_id" := of_opt_str (GenerateRequest.model_id req);
     "pipeline_id" := of_opt_str (GenerateRequest.pipeline_id req);
     "params" := VDict (dict_or_empty (GenerateRequest.params req));
     "status" := VStr "queued";
     "progress" := VInt 0 ]}.

(** [job = JobSchema(...)]: the constructor validates and may raise. *)
Definition generate_job {rt : Runtime} (req : GenerateRequest.t) : Exn + Job.t :=
  match model_validate (generate_kwargs req) with
  | Some job => inr job
  | None => inl ValidationError
  end.

Definition generate_assets {rt : Runtime} (db : DB) (req : GenerateRequest.t)
  : Exn + (DB * dict) :=
  job ← generate_job req;
  '(db', job_id) ← store_call (create_document db "job" job);
  inr (db', {[ "job_id" := VStr job_id; "status" := VStr "queued" ]}).

(** ** The framework around a handler (FastAPI) *)

Inductive Reply :=
  | Success (body : dict)         (* 200 *)
  | Unprocessable                 (* 422: the request body failed validation *)
  | ServerError (e : Exn).        (* 500: the handler raised *)

(** The response for what a handler returns: the JSON rendering of it, or
    the server error of the rendering when it holds what JSON cannot. *)
Definition respond (returned : dict) : Reply :=
  if encodable (VDict returned) then Success returned else ServerError EncodeError.

(** The response to a body that failed validation: the 422 body lists the
    errors with the inputs they reject, so it is rendered only when these
    inputs are. *)
Definition reject (inputs : list Value) : Reply :=
  if forallb encodable inputs then Unprocessable else ServerError EncodeError.

(** A route whose handler takes a body parameter of shape [T]: the JSON body
    is validated first, and the handler runs only on a validated payload. *)
Definition post_route {rt : Runtime} {T} `{BaseModel T}
    (handler : DB -> T -> Exn + (DB * dict)) (db : DB) (body : Value) : DB * Reply :=
  match dict_any body ≫= model_validate with
  | None => (db, reject (body_errors (model_shape T) body))
  | Some payload =>
      match handler db payload with
      | inr (db', r) => (db', respond r)
      | inl e => (db, ServerError e)
      end
  end.

Definition get_route (handler : DB -> Exn + dict) (db : DB) : Reply :=
  match handler db with
  | inr r => respond r
  | inl e => ServerError e
  end.

(** A route declared with [response_model=T]: what the handler returns is
    validated against [T] and serialised from it. *)
Definition response_model (T : Type) `{BaseModel T} (returned : dict) : Reply :=
  match model_validate (T:=T) returned with
  | Some r => respond (model_dump r)
  | None => ServerError ValidationError
  end.

Definition POST_models {rt : Runtime} := post_route create_model.
Definition POST_pipelines {rt : Runtime} := post_route create_pipeline.
Definition POST_jobs {rt : Runtime} := post_route create_job.
Definition POST_generate {rt : Runtime} := post_route generate_assets.
Definition GET_schema {rt : Runtime} := response_model SchemaResponse.t get_schema.
Definition GET_models {rt : Runtime} := get_route list_models.
Definition GET_pipelines {rt : Runtime} := get_route list_pipelines.
Definition GET_jobs {rt : Runtime} := get_route list_jobs.

(** The three listing routes, each with the collection it reads. *)
Definition listing_routes {rt : Runtime} : list (string * (DB -> Reply)) :=
  [("model", GET_models); ("pipeline", GET_pipelines); ("job", GET_jobs)].

(** ** Vocabulary of the statements *)


(** A field of the status object [GET /test] answers with. *)
Definition reported (answer : string + dict) (k : string) : option Value :=
  match answer with
  | inr response => response !! k
  | inl _ => None
  end.

(** [response] of [test_database] when the inner [try] is entered, but for
    its [database] entry, which every path overwrites afterwards. *)
Definition test_database_connected (env : environ) : dict :=
  <["connection_status" := VStr "Connected"]>
    (<["database_name" := VStr (str_or (env !! "DATABASE_NAME") "❌ Not Set")]>
       (<["database_url" :=
            VStr (if truthy (env !! "DATABASE_URL") then "✅ Set" else "❌ Not Set")]>
          test_database_init)).

(** ** Concrete inputs for running the handlers *)

(** A runtime without lax coercions, whose [str()] prints an identifier in
    decimal and leaves a string as it is. *)
Definition strict_runtime : Runtime := {|
  py_str := λ v,
    match v with
    | VObjectId n => pretty n
    | VStr s => s
    | _ => ""
    end;
  lax_int := λ _, None;
  lax_bool := λ _, None;
|}.

(** A NaN: exponent bits all set, fraction not zero. *)
Definition float_nan : N := 0x7FF8000000000000.

(** An initialised, reachable, empty store. *)
Definition empty_store : Store := mkStore Up ∅ 0.

(** An initialised store that holds one job and whose link is [lnk]. *)
Definition one_job_store (lnk : Link) : Store :=
  mkStore lnk
    {[ "job" := [ <["_id" := VObjectId 7]>
                    (Job.dump (Job.mk "face" None None ∅ "running" 40 [])) ] ]}
    8.

(** Environments: two that differ in the connection endpoint, two that
    differ in the database name. *)
Definition env_url_a : environ := {[ "DATABASE_URL" := "mongodb://a" ]}.
Definition env_url_b : environ := {[ "DATABASE_URL" := "mongodb://b" ]}.
Definition env_prod : environ :=
  {[ "DATABASE_URL" := "mongodb://a"; "DATABASE_NAME" := "prod" ]}.
Definition env_staging : environ :=
  {[ "DATABASE_URL" := "mongodb://a"; "DATABASE_NAME" := "staging" ]}.

(** Request bodies for POST /jobs. *)
Definition body_expression : dict := {[ "type" := VStr "expression"; "progress" := VInt 3 ]}.
Definition body_running : dict :=
  {[ "type" := VStr "face"; "status" := VStr "running"; "progress" := VInt 40 ]}.

(** ** The sample shapes of schemas.py *)

(** [User], kept by [schemas.py] for reference; no route uses it. *)
Module User.
Record t := mk {
  name : string;
  email : string;
  address : string;
  age : option Z;
  is_active : bool;
}.

Definition fields : list Field :=
  [ mkField "name" TStr None;
    mkField "email" TStr None;
    mkField "address" TStr None;
    mkField "age" (TOptional TInt) (Some VNull);
    mkField "is_active" TBool (Some (VBool true)) ].

Definition validate {rt : Runtime} (d : dict) : option t :=
  name ← required d "name" str_;
  email ← required d "email" str_;
  address ← required d "address" str_;
  age ← defaulted d "age" (optional int_) None;
  is_active ← defaulted d "is_active" bool_ true;
  Some (mk name email address age is_active).

Definition dump (u : t) : dict :=
  {[ "name" := VStr (name u);
     "email" := VStr (email u);
     "address" := VStr (address u);
     "age" := match age u with
              | Some z => VInt z
              | None => VNull
              end;
     "is_active" := VBool (is_active u) ]}.

#[global] Instance model {rt : Runtime} : BaseModel t := {|
  model_shape := fields;
  model_validate := validate;
  model_dump := dump;
|}.
End User.

(** ** Further vocabulary *)

(** [len(s)] on a [str]: the number of code points. *)
Fixpoint code_points (s : string) : nat :=
  match s with
  | EmptyString => 0
  | String c s' => if is_continuation c then code_points s' else S (code_points s')
  end.

(** Records and bodies for running the shapes. *)
Definition sample_job : Job.t := Job.mk "dress" (Some "m1") None ∅ "failed" 100 [∅].
Definition sample_dataset : Dataset.t := Dataset.mk None "faces" "ready" 12 [].
Definition body_extra : dict :=
  {[ "type" := VStr "face"; "status" := VStr "running"; "progress" := VInt 40;
     "colour" := VStr "teal" ]}.

(** * Results *)

#[local] Set Warnings "-clear-no-such-hyp".

(** ** Field validators *)

Lemma literal_Some allowed v s :
  literal allowed v = Some s ↔ v = VStr s ∧ s ∈ allowed.
Proof.
  unfold literal. destruct v; try (split; [done | intros [? _]; done]).
  case_bool_decide; split; intros; simplify_eq; naive_solver.
Qed.


Lemma optional_of_opt_str o : optional str_ (of_opt_str o) = Some o.
Proof. by destruct o. Qed.

Lemma dict_or_empty_id d : dict_or_empty d = d.
Proof.
  unfold dict_or_empty. case_decide as Hs; [|done].
  symmetry. by apply map_size_empty_iff.
Qed.

(** ** JSON rendering *)

Lemma encodable_dict (d : dict) :
  encodable (VDict d) = true ↔ map_Forall (λ _ x, encodable x = true) d.
Proof.
  cbn [encodable].
  induction d as [|k x d Hk Hfold IH] using map_first_key_ind.
  - rewrite map_fold_empty. split; [intros _; apply map_Forall_empty|done].
  - rewrite map_fold_insert_first_key by done.
    by rewrite andb_true_iff, IH, map_Forall_insert.
Qed.


Lemma encodable_list l : encodable (VList l) = true ↔ Forall (λ x, encodable x = true) l.
Proof. cbn [encodable]. by rewrite forallb_forall, Forall_forall; setoid_rewrite list_elem_of_In. Qed.

Lemma respond_encodable r : encodable (VDict r) = true → respond r = Success r.
Proof. unfold respond. by intros ->. Qed.

Lemma respond_not_encodable r :
  encodable (VDict r) = false → respond r = ServerError EncodeError.
Proof. unfold respond. by intros ->. Qed.





(** ** Declared shapes *)

Section Shapes.
Context {rt : Runtime}.

(** A value passes its annotation exactly when validation reports no error
    for it. *)
Lemma check_Some_rejected t v : is_Some (check t v) ↔ rejected t v = [].
Proof.
  revert v. induction t as [| | | | allowed | t IH | t IH]; intros v;
    try (cbn [rejected]; destruct (check _ v); split; by eauto).
  - cbn [check rejected]. destruct v; try apply IH. split; by eauto.
  - cbn [check rejected].
    destruct v as [| | | | |l| |]; try (split; [by intros [? ?]|done]).
    rewrite fmap_is_Some, mapM_is_Some. induction l as [|x l IHl].
    + split; [done|constructor].
    + cbn [flat_map]. rewrite Forall_cons, app_nil, <- IHl, <- IH. done.
Qed.

Lemma field_value_errors f d : is_Some (field_value f d) ↔ field_errors f d = [].
Proof.
  unfold field_value, field_errors. destruct (d !! fname f).
  - apply check_Some_rejected.
  - destruct (fdefault f); split; try done; by eauto.
Qed.

(** An object is valid exactly when validation reports no error. *)
Lemma validate_fields_errors fs d :
  is_Some (validate_fields fs d) ↔ shape_errors fs d = [].
Proof.
  unfold shape_errors. induction fs as [|f fs IH]; cbn [validate_fields flat_map].
  - split; [done|by eauto].
  - rewrite app_nil, <- IH, <- field_value_errors.
    destruct (field_value f d), (validate_fields fs d); simpl;
      split; try (intros [? ?]); try done; try (by eauto); by intros [[] []].
Qed.



(** The typed validators, read as checks of an annotation. *)
Lemma check_optional_str v : check (TOptional TStr) v = of_opt_str <$> optional str_ v.
Proof. by destruct v. Qed.

Lemma mapM_bridge {A} (f : Value → option Value) (val : Value → option A)
    (ser : A → Value) l :
  (∀ x, f x = ser <$> val x) → mapM f l = fmap ser <$> mapM val l.
Proof.
  intros Hbridge. induction l as [|x l IH]; [done|].
  cbn [mapM]. rewrite Hbridge, IH.
  destruct (val x); [|done]. by destruct (mapM val l).
Qed.

Lemma check_list_str v :
  check (TList TStr) v = (λ l, VList (VStr <$> l)) <$> list_of str_ v.
Proof.
  destruct v as [| | | | |l| |]; try done. cbn [check list_of].
  rewrite (mapM_bridge _ str_ VStr) by done. by destruct (mapM str_ l).
Qed.

Lemma check_list_dict v :
  check (TList TDictAny) v = (λ l, VList (VDict <$> l)) <$> list_of dict_any v.
Proof.
  destruct v as [| | | | |l| |]; try done. cbn [check list_of].
  rewrite (mapM_bridge _ dict_any VDict) by done. by destruct (mapM dict_any l).
Qed.

Lemma check_optional_list_str v :
  check (TOptional (TList TStr)) v =
  (λ o : option (list string),
     match o with
     | Some l => VList (VStr <$> l)
     | None => VNull
     end) <$> optional (list_of str_) v.
Proof.
  destruct v as [| | | | |l| |]; try done.
  change (check (TOptional (TList TStr)) (VList l)) with (check (TList TStr) (VList l)).
  rewrite check_list_str. unfold optional. by destruct (list_of str_ (VList l)).
Qed.

Lemma check_optional_int v :
  check (TOptional TInt) v =
  (λ o : option Z,
     match o with
     | Some z => VInt z
     | None => VNull
     end) <$> optional int_ v.
Proof.
  destruct v; try done; cbn [check optional]; by destruct (int_ _).
Qed.

(** A line of a typed validator is the value of the declared field. *)
Lemma field_value_required {A} k t (val : Value → option A) (ser : A → Value) d :
  (∀ v, check t v = ser <$> val v) →
  field_value (mkField k t None) d = ser <$> required d k val.
Proof.
  intros Hbridge. unfold field_value, required. cbn [fname ftype fdefault].
  destruct (d !! k); [apply Hbridge|done].
Qed.

Lemma field_value_defaulted {A} k t (val : Value → option A) (ser : A → Value)
    dflt shown d :
  (∀ v, check t v = ser <$> val v) →
  shown = ser dflt →
  field_value (mkField k t (Some shown)) d = ser <$> defaulted d k val dflt.
Proof.
  intros Hbridge ->. unfold field_value, defaulted. cbn [fname ftype fdefault].
  destruct (d !! k); [apply Hbridge|done].
Qed.
End Shapes.

(** ** The typed validators follow the declared fields *)

Section Agreement.
Context {rt : Runtime}.

(** The side conditions of reading a line of a validator as a declared
    field. *)
Ltac bridge :=
  first [ apply check_optional_str | apply check_list_str | apply check_list_dict
        | apply check_optional_list_str | apply check_optional_int | done ].

(** Runs both validations field by field. *)
Ltac field_by_field :=
  repeat match goal with
         | |- context [required ?d ?k ?val] =>
             destruct (required d k val); simpl; [|done]
         | |- context [defaulted ?d ?k ?val ?dflt] =>
             destruct (defaulted d k val dflt); simpl; [|done]
         end;
  done.

Lemma Model_follows_fields d :
  Model.dump <$> Model.validate d = validate_fields Model.fields d.
Proof.
  unfold Model.fields. cbn [validate_fields].
  rewrite (field_value_required "name" _ str_ VStr) by bridge.
  rewrite (field_value_defaulted "description" _ (optional str_) of_opt_str None _) by bridge.
  rewrite (field_value_defaulted "identity_seed" _ (optional str_) of_opt_str None _) by bridge.
  rewrite (field_value_defaulted "tags" _ (list_of str_) (λ l, VList (VStr <$> l)) [] _) by bridge.
  rewrite (field_value_defaulted "style_preset" _ (optional str_) of_opt_str None _) by bridge.
  rewrite (field_value_defaulted "face_embeddings" _ (optional (list_of str_)) _ None _) by bridge.
  rewrite (field_value_defaulted "consistency_profile" _ dict_any VDict ∅ _) by bridge.
  unfold Model.validate. field_by_field.
Qed.

Lemma Pipeline_follows_fields d :
  Pipeline.dump <$> Pipeline.validate d = validate_fields Pipeline.fields d.
Proof.
  unfold Pipeline.fields. cbn [validate_fields].
  rewrite (field_value_required "name" _ str_ VStr) by bridge.
  rewrite (field_value_defaulted "version" _ str_ VStr "1.0" _) by bridge.
  rewrite (field_value_defaulted "is_active" _ bool_ VBool true _) by bridge.
  rewrite (field_value_defaulted "nodes" _ (list_of dict_any) (λ l, VList (VDict <$> l)) [] _) by bridge.
  rewrite (field_value_defaulted "edges" _ (list_of dict_any) (λ l, VList (VDict <$> l)) [] _) by bridge.
  unfold Pipeline.validate. field_by_field.
Qed.

Lemma Dataset_follows_fields d :
  Dataset.dump <$> Dataset.validate d = validate_fields Dataset.fields d.
Proof.
  unfold Dataset.fields. cbn [validate_fields].
  rewrite (field_value_defaulted "model_id" _ (optional str_) of_opt_str None _) by bridge.
  rewrite (field_value_required "title" _ str_ VStr) by bridge.
  rewrite (field_value_defaulted "status" _ (literal Dataset.status_values) VStr "idle" _) by bridge.
  rewrite (field_value_defaulted "size" _ int_ VInt 0%Z _) by bridge.
  rewrite (field_value_defaulted "items" _ (list_of dict_any) (λ l, VList (VDict <$> l)) [] _) by bridge.
  unfold Dataset.validate. field_by_field.
Qed.

Lemma Job_follows_fields d :
  Job.dump <$> Job.validate d = validate_fields Job.fields d.
Proof.
  unfold Job.fields. cbn [validate_fields].
  rewrite (field_value_required "type" _ (literal Job.type_values) VStr) by bridge.
  rewrite (field_value_defaulted "model_id" _ (optional str_) of_opt_str None _) by bridge.
  rewrite (field_value_defaulted "pipeline_id" _ (optional str_) of_opt_str None _) by bridge.
  rewrite (field_value_defaulted "params" _ dict_any VDict ∅ _) by bridge.
  rewrite (field_value_defaulted "status" _ (literal Job.status_values) VStr "queued" _) by bridge.
  rewrite (field_value_defaulted "progress" _ int_ VInt 0%Z _) by bridge.
  rewrite (field_value_defaulted "output" _ (list_of dict_any) (λ l, VList (VDict <$> l)) [] _) by bridge.
  unfold Job.validate. field_by_field.
Qed.

Lemma GenerateRequest_follows_fields d :
  GenerateRequest.dump <$> GenerateRequest.validate d
  = validate_fields GenerateRequest.fields d.
Proof.
  unfold GenerateRequest.fields. cbn [validate_fields].
  rewrite (field_value_defaulted "model_id" _ (optional str_) of_opt_str None _) by bridge.
  rewrite (field_value_defaulted "pipeline_id" _ (optional str_) of_opt_str None _) by bridge.
  rewrite (field_value_required "task" _ str_ VStr) by bridge.
  rewrite (field_value_defaulted "promptless" _ bool_ VBool true _) by bridge.
  rewrite (field_value_defaulted "params" _ dict_any VDict ∅ _) by bridge.
  unfold GenerateRequest.validate. field_by_field.
Qed.

Lemma User_follows_fields d :
  User.dump <$> User.validate d = validate_fields User.fields d.
Proof.
  unfold User.fields. cbn [validate_fields].
  rewrite (field_value_required "name" _ str_ VStr) by bridge.
  rewrite (field_value_required "email" _ str_ VStr) by bridge.
  rewrite (field_value_required "address" _ str_ VStr) by bridge.
  rewrite (field_value_defaulted "age" _ (optional int_) _ None _) by bridge.
  rewrite (field_value_defaulted "is_active" _ bool_ VBool true _) by bridge.
  unfold User.validate. field_by_field.
Qed.

Lemma SchemaResponse_follows_fields d :
  SchemaResponse.dump <$> SchemaResponse.validate d
  = validate_fields SchemaResponse.fields d.
Proof.
  unfold SchemaResponse.fields. cbn [validate_fields].
  rewrite (field_value_required "collections" _ (list_of dict_any)
             (λ l, VList (VDict <$> l))) by bridge.
  unfold SchemaResponse.validate. field_by_field.
Qed.

(** A body fails a typed validator exactly when validation against the
    declared fields reports an error. *)
Lemma invalid_has_errors {A} (validate : dict → option A) (dump : A → dict) fs body :
  (∀ d, dump <$> validate d = validate_fields fs d) →
  dict_any body ≫= validate = None ↔ body_errors fs body ≠ [].
Proof.
  intros Hfollow. destruct body as [| | | | | |d|]; try done.
  cbn [dict_any mbind option_bind body_errors].
  rewrite <- (not_iff_compat (validate_fields_errors fs d)), <- Hfollow.
  rewrite <- eq_None_not_Some, fmap_None. done.
Qed.
End Agreement.

(** ** Routes *)

Section Routes.
Context {rt : Runtime}.


End Routes.

(** ** The Job shape *)

Section JobShape.
Context {rt : Runtime}.

(** What a successful validation says about each field, read off the
    request object. *)
Lemma Job_validate_Some d j :
  Job.validate d = Some j →
  required d "type" (literal Job.type_values) = Some (Job.type j) ∧
  defaulted d "model_id" (optional str_) None = Some (Job.model_id j) ∧
  defaulted d "pipeline_id" (optional str_) None = Some (Job.pipeline_id j) ∧
  defaulted d "params" dict_any ∅ = Some (Job.params j) ∧
  defaulted d "status" (literal Job.status_values) "queued" = Some (Job.status j) ∧
  defaulted d "progress" int_ 0%Z = Some (Job.progress j) ∧
  defaulted d "output" (list_of dict_any) [] = Some (Job.output j).
Proof.
  unfold Job.validate. intros Hv.
  repeat (apply bind_Some in Hv as (? & ? & Hv)).
  by simplify_eq.
Qed.



Lemma Job_status_allowed d j :
  Job.validate d = Some j → Job.status j ∈ Job.status_values.
Proof.
  intros (_ & _ & _ & _ & Hs & _)%Job_validate_Some.
  unfold defaulted in Hs. destruct (d !! "status").
  - by apply literal_Some in Hs as [_ ?].
  - simplify_eq. unfold Job.status_values. set_solver.
Qed.

Lemma Job_type_allowed d j :
  Job.validate d = Some j → Job.type j ∈ Job.type_values.
Proof.
  intros (Ht & _)%Job_validate_Some.
  unfold required in Ht. apply bind_Some in Ht as (v & _ & Ht).
  by apply literal_Some in Ht as [_ ?].
Qed.

Lemma Job_dump_dom j : dom (Job.dump j) = list_to_set (model_fields Job.t).
Proof. unfold Job.dump. cbn [model_fields Job.model]. set_solver. Qed.
End JobShape.

(** ** POST /generate *)

Section Generate.
Context {rt : Runtime}.

Lemma generate_tasks_are_types s : s ∈ generate_tasks → s ∈ Job.type_values.
Proof.
  unfold generate_tasks, Job.type_values. rewrite !elem_of_cons. naive_solver.
Qed.

Lemma generate_type_allowed req : generate_type req ∈ Job.type_values.
Proof.
  unfold generate_type. case_bool_decide.
  - by apply generate_tasks_are_types.
  - unfold Job.type_values. set_solver.
Qed.

(** The [JobSchema(...)] call of the handler never raises, and this is the
    job it builds. *)
Lemma generate_job_eq req :
  generate_job req =
  inr (Job.mk (generate_type req) (GenerateRequest.model_id req)
         (GenerateRequest.pipeline_id req) (GenerateRequest.params req)
         "queued" 0 []).
Proof.
  unfold generate_job, generate_kwargs. cbn [model_validate Job.model].
  unfold Job.validate, required, defaulted. simplify_map_eq.
  rewrite bool_decide_eq_true_2 by apply generate_type_allowed.
  by rewrite !optional_of_opt_str, dict_or_empty_id.
Qed.

(** The handler, once the job is known: one store insert, then the reply. *)
Lemma generate_assets_eq db req job :
  generate_job req = inr job →
  generate_assets db req =
  match create_document db "job" job with
  | inr (db', job_id) => inr (db', {[ "job_id" := VStr job_id; "status" := VStr "queued" ]})
  | inl e => inl (StoreExn e)
  end.
Proof.
  unfold generate_assets. intros ->. simpl.
  by destruct (create_document db "job" job) as [|[]].
Qed.
End Generate.

(** ** The store *)

Section StoreFacts.
Context {rt : Runtime} {T : Type} `{BaseModel T}.

(** An insert into a reachable store succeeds: the record goes last in its
    collection under the fresh identifier, whose string is returned. *)
Lemma create_document_up cs n (c : string) (data : T) :
  create_document (Some (mkStore Up cs n)) c data =
  inr (Some (mkStore Up
               (<[c := (default [] (cs !! c) ++
                        [<["_id" := VObjectId n]> (model_dump data)])%list]> cs)
               (N.succ n)),
       py_str (VObjectId n)).
Proof. reflexivity. Qed.

Lemma create_document_uninitialised (c : string) (data : T) :
  create_document None c data = inl StoreUnavailable.
Proof. reflexivity. Qed.

Lemma create_document_down cs n msg (c : string) (data : T) :
  create_document (Some (mkStore (Down msg) cs n)) c data = inl (StoreError msg).
Proof. reflexivity. Qed.
End StoreFacts.

(** ** Claims on POST /generate *)

(** C1. For every POST /generate request the job record the handler creates
    has the request's task as its type when the task is one of face,
    fullbody, angles360, expression, background, dress, and has type
    "dataset" for every other task string.  The record is the one handed to
    the store. *)
Theorem generate_job_type {rt : Runtime} (db : DB) (req : GenerateRequest.t) :
  ∃ job : Job.t,
    generate_job req = inr job ∧
    (GenerateRequest.task req ∈
       ["face"; "fullbody"; "angles360"; "expression"; "background"; "dress"] →
       Job.type job = GenerateRequest.task req) ∧
    (GenerateRequest.task req ∉
       ["face"; "fullbody"; "angles360"; "expression"; "background"; "dress"] →
       Job.type job = "dataset") ∧
    generate_assets db req =
      match create_document db "job" job with
      | inr (db', job_id) =>
          inr (db', {[ "job_id" := VStr job_id; "status" := VStr "queued" ]})
      | inl e => inl (StoreExn e)
      end.
Proof.
  eexists. split; [apply generate_job_eq|].
  repeat split.
  - intros Hin. cbn [Job.type]. unfold generate_type.
    by rewrite bool_decide_eq_true_2.
  - intros Hout. cbn [Job.type]. unfold generate_type.
    by rewrite bool_decide_eq_false_2.
  - apply generate_assets_eq, generate_job_eq.
Qed.

(** C2. For every POST /generate request the job record created has status
    "queued" and progress 0 whatever the request holds, and the reply built
    from the store's identifier is [{job_id, status: "queued"}]; on a
    reachable store the insert succeeds, the job goes last in the job
    collection and the reply names the identifier it is stored under. *)
Theorem generate_job_queued {rt : Runtime} (db : DB) (req : GenerateRequest.t) :
  ∃ job : Job.t,
    generate_job req = inr job ∧
    Job.status job = "queued" ∧
    Job.progress job = 0%Z ∧
    generate_assets db req =
      match create_document db "job" job with
      | inr (db', job_id) =>
          inr (db', {[ "job_id" := VStr job_id; "status" := VStr "queued" ]})
      | inl e => inl (StoreExn e)
      end ∧
    ∀ cs n,
      generate_assets (Some (mkStore Up cs n)) req =
      inr (Some (mkStore Up
                   (<["job" := (default [] (cs !! "job") ++
                                [<["_id" := VObjectId n]> (Job.dump job)])%list]> cs)
                   (N.succ n)),
           {[ "job_id" := VStr (py_str (VObjectId n)); "status" := VStr "queued" ]}).
Proof.
  eexists. split; [apply generate_job_eq|].
  split; [done|]. split; [done|]. split.
  - apply generate_assets_eq, generate_job_eq.
  - intros cs n.
    rewrite (generate_assets_eq _ _ _ (generate_job_eq req)).
    by rewrite create_document_up.
Qed.

(** C10. The promptless field of a POST /generate request has no effect: two
    requests that differ in nothing but promptless build the same job and
    get the same outcome from the handler on the same store. *)
Theorem promptless_has_no_effect {rt : Runtime} (db : DB)
    (model_id pipeline_id : option string) (task : string) (params : dict)
    (p1 p2 : bool) :
  let req1 := GenerateRequest.mk model_id pipeline_id task p1 params in
  let req2 := GenerateRequest.mk model_id pipeline_id task p2 params in
  generate_job req1 = generate_job req2 ∧
  generate_assets db req1 = generate_assets db req2.
Proof.
  intros req1 req2.
  assert (generate_job req1 = generate_job req2) as Hjob
    by (by rewrite !generate_job_eq).
  split; [done|]. unfold generate_assets. by rewrite Hjob.
Qed.

(** The first claim at a task of the list and at one outside it. *)
Lemma generate_job_type_witness :
  (∃ job, generate_job (rt:=strict_runtime)
            (GenerateRequest.mk None None "face" true ∅) = inr job ∧
          Job.type job = "face") ∧
  (∃ job, generate_job (rt:=strict_runtime)
            (GenerateRequest.mk None None "sparkle" true ∅) = inr job ∧
          Job.type job = "dataset").
Proof.
  split.
  - destruct (generate_job_type (rt:=strict_runtime) None
                (GenerateRequest.mk None None "face" true ∅))
      as (job & Hjob & Hin & _ & _).
    exists job. split; [exact Hjob|]. apply Hin.
    apply (bool_decide_unpack _). vm_compute. exact I.
  - destruct (generate_job_type (rt:=strict_runtime) None
                (GenerateRequest.mk None None "sparkle" true ∅))
      as (job & Hjob & _ & Hout & _).
    exists job. split; [exact Hjob|]. apply Hout.
    apply (bool_decide_unpack _). vm_compute. exact I.
Defined.

(** ** GET /test *)

Section Probe.
Ltac run_probe :=
  unfold test_database, test_database_body, try_except, bind, setitem, call.

Ltac same_map :=
  apply map_eq; intros k; unfold test_database_connected;
  rewrite !lookup_insert; repeat case_decide; simplify_eq; done.

(** The handler always returns, and this is the response. *)
Lemma test_database_eq (db : DB) (env : environ) :
  test_database db env =
  inr match db with
      | None =>
          <["database" := VStr "⚠️ Available but not initialized"]> test_database_init
      | Some st =>
          match list_collection_names st with
          | inl e =>
              <["database" := VStr ("⚠️ Connected but Error: " ++ str_take 80 e)]>
                (test_database_connected env)
          | inr names =>
              <["database" := VStr "✅ Connected & Working"]>
                (<["collections" := VList (VStr <$> take 10 names)]>
                   (test_database_connected env))
          end
      end.
Proof.
  run_probe. destruct db as [st|]; [|done].
  destruct (list_collection_names st) as [e|names]; f_equal; same_map.
Qed.

Lemma test_database_init_dom :
  dom test_database_init =
  list_to_set ["backend"; "database"; "database_url"; "database_name";
               "connection_status"; "collections"].
Proof. unfold test_database_init. set_solver. Qed.

Lemma test_database_connected_dom env :
  dom (test_database_connected env) = dom test_database_init.
Proof.
  unfold test_database_connected. rewrite !dom_insert_L, test_database_init_dom.
  set_solver.
Qed.
End Probe.

(** C7. GET /test answers with a well-formed status object under every store
    condition: whatever the handle is (uninitialised, raising when its
    collections are listed, or healthy) no exception leaves the handler and
    the response has its six entries; a fault while listing changes nothing
    but the [database] string of the connected response, and a healthy
    store adds the first ten collection names, never more. *)
Theorem test_database_never_fails (db : DB) (env : environ) :
  ∃ response : dict,
    test_database db env = inr response ∧
    dom response =
      list_to_set ["backend"; "database"; "database_url"; "database_name";
                   "connection_status"; "collections"] ∧
    match db with
    | None =>
        response =
        <["database" := VStr "⚠️ Available but not initialized"]> test_database_init
    | Some st =>
        match list_collection_names st with
        | inl e =>
            response =
            <["database" := VStr ("⚠️ Connected but Error: " ++ str_take 80 e)]>
              (test_database_connected env)
        | inr names =>
            response =
            <["database" := VStr "✅ Connected & Working"]>
              (<["collections" := VList (VStr <$> take 10 names)]>
                 (test_database_connected env)) ∧
            (length (take 10 names) ≤ 10)%nat
        end
    end.
Proof.
  eexists. split; [apply test_database_eq|].
  destruct db as [st|]; [destruct (list_collection_names st) as [e|names]|].
  - split; [|done].
    rewrite dom_insert_L, test_database_connected_dom, test_database_init_dom.
    set_solver.
  - split; [|split; [done|]].
    + rewrite !dom_insert_L, test_database_connected_dom, test_database_init_dom.
      set_solver.
    + rewrite length_take. lia.
  - split; [|done].
    rewrite dom_insert_L, test_database_init_dom. set_solver.
Qed.

(** C9, as the code has it.  The [database_url] entry is a flag: it is one
    of two fixed strings, and two environments that agree on whether
    DATABASE_URL holds a non-empty string get the same entry.  The
    [database_name] entry of an initialised handle is the value of
    DATABASE_NAME itself when that is a non-empty string, and the "Not Set"
    string otherwise. *)
Theorem test_database_env_entries (db : DB) (env1 env2 : environ) :
  truthy (env1 !! "DATABASE_URL") = truthy (env2 !! "DATABASE_URL") →
  reported (test_database db env1) "database_url" =
    reported (test_database db env2) "database_url" ∧
  reported (test_database db env1) "database_url" =
    Some (VStr (if bool_decide (is_Some db) && truthy (env1 !! "DATABASE_URL")
                then "✅ Set" else "❌ Not Set")) ∧
  reported (test_database db env1) "database_name" =
    Some (VStr match db with
               | Some _ => str_or (env1 !! "DATABASE_NAME") "❌ Not Set"
               | None => "❌ Not Set"
               end).
Proof.
  intros Hurl.
  assert (∀ env, reported (test_database db env) "database_url" =
    Some (VStr (if bool_decide (is_Some db) && truthy (env !! "DATABASE_URL")
                then "✅ Set" else "❌ Not Set"))) as Hflag.
  { intros env. rewrite test_database_eq. unfold reported.
    destruct db as [st|]; [|done].
    rewrite bool_decide_eq_true_2 by eauto.
    destruct (list_collection_names st); unfold test_database_connected;
      by simplify_map_eq. }
  split; [by rewrite !Hflag, Hurl|]. split; [apply Hflag|].
  rewrite test_database_eq. unfold reported.
  destruct db as [st|]; [|done].
  destruct (list_collection_names st); unfold test_database_connected;
    by simplify_map_eq.
Qed.

Lemma test_database_env_entries_witness :
  truthy (env_url_a !! "DATABASE_URL") = truthy (env_url_b !! "DATABASE_URL") ∧
  reported (test_database (Some empty_store) env_url_a) "database_url" =
    reported (test_database (Some empty_store) env_url_b) "database_url".
Proof.
  assert (truthy (env_url_a !! "DATABASE_URL") = truthy (env_url_b !! "DATABASE_URL"))
    as Hurl by (reflexivity).
  split; [exact Hurl|].
  exact (proj1 (test_database_env_entries (Some empty_store) env_url_a env_url_b Hurl)).
Defined.

(** C9, as the claim words it, fails on [database_name]: two environments in
    which both variables are set, and which differ in the value of
    DATABASE_NAME alone, get different entries: the values themselves. *)
Lemma database_name_shows_value :
  (∀ k, is_Some (env_prod !! k) ↔ is_Some (env_staging !! k)) ∧
  reported (test_database (Some empty_store) env_prod) "database_name"
    = Some (VStr "prod") ∧
  reported (test_database (Some empty_store) env_staging) "database_name"
    = Some (VStr "staging") ∧
  reported (test_database (Some empty_store) env_prod) "database_name" ≠
    reported (test_database (Some empty_store) env_staging) "database_name".
Proof.
  assert (reported (test_database (Some empty_store) env_prod) "database_name"
          = Some (VStr "prod")) as H1 by (reflexivity).
  assert (reported (test_database (Some empty_store) env_staging) "database_name"
          = Some (VStr "staging")) as H2 by (reflexivity).
  split; [|split; [done|split; [done|]]].
  - intros k. unfold env_prod, env_staging.
    rewrite !lookup_insert, !lookup_singleton. by repeat case_decide.
  - rewrite H1, H2. intros [=].
Qed.

(** ** Claims on POST /jobs *)

Section PostJobs.
Context {rt : Runtime}.

(** A valid body reaches the handler, which makes one insert. *)
Lemma POST_jobs_valid (db : DB) (d : dict) (payload : Job.t) :
  Job.validate d = Some payload →
  POST_jobs db (VDict d) =
  match create_document db "job" payload with
  | inr (db', inserted_id) =>
      (db', Success {[ "id" := VStr inserted_id;
                       "status" := VStr (Job.status payload) ]})
  | inl e => (db, ServerError (StoreExn e))
  end.
Proof.
  intros Hval. unfold POST_jobs, post_route.
  cbn [dict_any mbind option_bind model_validate Job.model]. rewrite Hval.
  unfold create_job.
  by destruct (create_document db "job" payload) as [|[]].
Qed.

Lemma POST_jobs_up cs n (d : dict) (payload : Job.t) :
  Job.validate d = Some payload →
  POST_jobs (Some (mkStore Up cs n)) (VDict d) =
  (Some (mkStore Up
           (<["job" := (default [] (cs !! "job") ++
                        [<["_id" := VObjectId n]> (Job.dump payload)])%list]> cs)
           (N.succ n)),
   Success {[ "id" := VStr (py_str (VObjectId n));
              "status" := VStr (Job.status payload) ]}).
Proof. intros Hval. by rewrite (POST_jobs_valid _ _ _ Hval), create_document_up. Qed.

Lemma Job_validate_type_only t :
  t ∈ Job.type_values →
  Job.validate {[ "type" := VStr t ]} = Some (Job.mk t None None ∅ "queued" 0 []).
Proof.
  intros Ht. unfold Job.validate, required, defaulted. simplify_map_eq.
  by rewrite bool_decide_eq_true_2.
Qed.
End PostJobs.




(** C6. For every valid POST /jobs body the handler is run on the validated
    payload: the reply carries the identifier the store returns under [id]
    and the payload's status under [status], the status being the one the
    body supplies; on a reachable store the insert succeeds, the identifier
    is the string of the raw identifier the record was stored under, and
    the record goes last in the job collection. *)
Theorem create_job_reply {rt : Runtime} (db : DB) (d : dict) (payload : Job.t) :
  Job.validate d = Some payload →
  POST_jobs db (VDict d) =
    match create_document db "job" payload with
    | inr (db', inserted_id) =>
        (db', Success {[ "id" := VStr inserted_id;
                         "status" := VStr (Job.status payload) ]})
    | inl e => (db, ServerError (StoreExn e))
    end ∧
  (∀ s, d !! "status" = Some (VStr s) → Job.status payload = s) ∧
  ∀ cs n,
    POST_jobs (Some (mkStore Up cs n)) (VDict d) =
    (Some (mkStore Up
             (<["job" := (default [] (cs !! "job") ++
                          [<["_id" := VObjectId n]> (Job.dump payload)])%list]> cs)
             (N.succ n)),
     Success {[ "id" := VStr (py_str (VObjectId n));
                "status" := VStr (Job.status payload) ]}).
Proof.
  intros Hval. split; [by apply POST_jobs_valid|]. split.
  - intros s Hs.
    apply Job_validate_Some in Hval as (_ & _ & _ & _ & Hst & _).
    unfold defaulted in Hst. rewrite Hs in Hst.
    apply literal_Some in Hst as [[= ->] _]. done.
  - intros cs n. by apply POST_jobs_up.
Qed.

Lemma create_job_reply_witness :
  Job.validate (rt:=strict_runtime) body_running
    = Some (Job.mk "face" None None ∅ "running" 40 []) ∧
  POST_jobs (rt:=strict_runtime) (Some empty_store) (VDict body_running)
  = (Some (mkStore Up
             (<["job" := [ <["_id" := VObjectId 0]>
                             (Job.dump (Job.mk "face" None None ∅ "running" 40 [])) ]]> ∅)
             1),
     Success {[ "id" := VStr "0"; "status" := VStr "running" ]}).
Proof.
  assert (Job.validate (rt:=strict_runtime) body_running
          = Some (Job.mk "face" None None ∅ "running" 40 [])) as Hval
    by (reflexivity).
  split; [exact Hval|].
  exact (proj2 (proj2 (create_job_reply (rt:=strict_runtime) None _ _ Hval)) ∅ 0%N).
Defined.

(** C8. In the validated record of a valid Job payload every omitted
    optional field has its default: status "queued", progress 0, params the
    empty mapping, output the empty sequence, model_id and pipeline_id
    null.  A body that supplies a valid type and nothing else is valid, and
    its record has all of them. *)
Theorem Job_defaults {rt : Runtime} (d : dict) (j : Job.t) :
  (Job.validate d = Some j →
     (d !! "status" = None → Job.status j = "queued") ∧
     (d !! "progress" = None → Job.progress j = 0%Z) ∧
     (d !! "params" = None → Job.params j = ∅) ∧
     (d !! "output" = None → Job.output j = []) ∧
     (d !! "model_id" = None → Job.model_id j = None) ∧
     (d !! "pipeline_id" = None → Job.pipeline_id j = None)) ∧
  ∀ t, t ∈ Job.type_values →
    Job.validate {[ "type" := VStr t ]} = Some (Job.mk t None None ∅ "queued" 0 []) ∧
    ∀ cs n,
      POST_jobs (Some (mkStore Up cs n)) (VDict {[ "type" := VStr t ]}) =
      (Some (mkStore Up
               (<["job" := (default [] (cs !! "job") ++
                            [<["_id" := VObjectId n]>
                               (Job.dump (Job.mk t None None ∅ "queued" 0 []))])%list]> cs)
               (N.succ n)),
       Success {[ "id" := VStr (py_str (VObjectId n)); "status" := VStr "queued" ]}).
Proof.
  split.
  - intros (_ & Hm & Hp & Hpa & Hs & Hpr & Ho)%Job_validate_Some.
    unfold defaulted in *.
    repeat split; intros Hnone; rewrite Hnone in *; congruence.
  - intros t Ht. split; [by apply Job_validate_type_only|].
    intros cs n. by apply POST_jobs_up, Job_validate_type_only.
Qed.

Lemma Job_defaults_witness :
  Job.validate (rt:=strict_runtime) body_expression
    = Some (Job.mk "expression" None None ∅ "queued" 3 []) ∧
  body_expression !! "status" = None ∧
  Job.status (Job.mk "expression" None None ∅ "queued" 3 []) = "queued" ∧
  Job.validate (rt:=strict_runtime) {[ "type" := VStr "expression" ]}
    = Some (Job.mk "expression" None None ∅ "queued" 0 []).
Proof.
  assert (Job.validate (rt:=strict_runtime) body_expression
          = Some (Job.mk "expression" None None ∅ "queued" 3 [])) as Hval
    by (reflexivity).
  assert (body_expression !! "status" = None) as Hnone by (reflexivity).
  split; [exact Hval|]. split; [exact Hnone|]. split.
  - exact (proj1 (proj1 (Job_defaults (rt:=strict_runtime) body_expression _) Hval)
             Hnone).
  - refine (proj1 (proj2 (Job_defaults (rt:=strict_runtime) body_expression
                            (Job.mk "expression" None None ∅ "queued" 3 []))
                     "expression" _)).
    apply (bool_decide_unpack _). vm_compute. exact I.
Defined.

(** ** The listing routes *)

Section Listing.
Context {rt : Runtime}.

Lemma rename_id_no_raw (d : dict) : rename_id d !! "_id" = None.
Proof.
  unfold rename_id. destruct (d !! "_id") eqn:Hraw; [|done].
  by rewrite lookup_insert_ne, lookup_delete_eq.
Qed.

Lemma rename_id_public (d : dict) raw :
  d !! "_id" = Some raw → rename_id d !! "id" = Some (VStr (py_str raw)).
Proof. unfold rename_id. intros ->. by rewrite lookup_insert_eq. Qed.


Lemma listing_route_eq c route (db : DB) :
  (c, route) ∈ listing_routes →
  route db =
  match get_documents db c with
  | inr docs => respond (items_of (rename_id <$> docs))
  | inl e => ServerError (StoreExn e)
  end.
Proof.
  unfold listing_routes. rewrite !elem_of_cons, elem_of_nil.
  intros [[= -> ->] | [[= -> ->] | [[= -> ->] | []]]];
    unfold GET_models, GET_pipelines, GET_jobs, get_route,
      list_models, list_pipelines, list_jobs;
    by destruct (get_documents db _).
Qed.

Lemma items_encodable (records : list dict) :
  encodable (VDict (items_of records)) = true ↔
  Forall (λ r, encodable (VDict r) = true) records.
Proof.
  unfold items_of. rewrite encodable_dict, map_Forall_singleton, encodable_list.
  by rewrite Forall_fmap.
Qed.

(** A list of records is rendered when each of them can be, and is the
    server error of the rendering otherwise. *)
Lemma respond_items (records : list dict) :
  (respond (items_of records) = Success (items_of records) ∨
   respond (items_of records) = ServerError EncodeError) ∧
  (respond (items_of records) = Success (items_of records) ↔
   Forall (λ r, encodable (VDict r) = true) records).
Proof.
  rewrite <- items_encodable. unfold respond.
  destruct (encodable (VDict (items_of records))); split; auto; split; done.
Qed.
End Listing.

(** C4. On each of GET /models, GET /pipelines and GET /jobs the handler
    turns the documents the store returns into one record per document, in
    order; no record has the raw identifier field [_id], and the record of a
    document stored under the raw identifier [raw] has an [id] field that is
    the string of [raw].  These records are what the reply returns: it
    holds them under [items] when each of them can be rendered as JSON, and
    it is the server error of the rendering, with no record, otherwise. *)
Theorem listing_exposes_id {rt : Runtime} (db : DB) (c : string) (route : DB → Reply)
    (docs : list dict) :
  (c, route) ∈ [("model", GET_models); ("pipeline", GET_pipelines); ("job", GET_jobs)] →
  get_documents db c = inr docs →
  ∃ records : list dict,
    Forall2 (λ d r, r !! "_id" = None ∧
                    ∀ raw, d !! "_id" = Some raw →
                           r !! "id" = Some (VStr (py_str raw)))
      docs records ∧
    (route db = Success {[ "items" := VList (VDict <$> records) ]} ∨
     route db = ServerError EncodeError) ∧
    (route db = Success {[ "items" := VList (VDict <$> records) ]} ↔
     Forall (λ r, encodable (VDict r) = true) records).
Proof.
  intros Hroute Hdocs. exists (rename_id <$> docs). split.
  - apply Forall2_fmap_r, Forall_Forall2_diag, Forall_forall.
    intros d _. split; [apply rename_id_no_raw|apply rename_id_public].
  - rewrite (listing_route_eq _ _ _ Hroute), Hdocs. apply respond_items.
Qed.

Lemma listing_exposes_id_witness :
  ∃ records : list dict,
    Forall2 (λ d r : dict, r !! "_id" = None ∧
                    ∀ raw, d !! "_id" = Some raw →
                           r !! "id" = Some (VStr (py_str (Runtime:=strict_runtime) raw)))
      [ <["_id" := VObjectId 7]> (Job.dump (Job.mk "face" None None ∅ "running" 40 [])) ]
      records ∧
    GET_jobs (rt:=strict_runtime) (Some (one_job_store Up))
      = Success {[ "items" := VList (VDict <$> records) ]}.
Proof.
  destruct (listing_exposes_id (rt:=strict_runtime) (Some (one_job_store Up)) "job"
              (GET_jobs (rt:=strict_runtime))
              [ <["_id" := VObjectId 7]>
                  (Job.dump (Job.mk "face" None None ∅ "running" 40 [])) ])
    as (records & Hrec & [Hok | Hfail] & _).
  - rewrite !elem_of_cons. auto.
  - reflexivity.
  - exists records. split; [exact Hrec|exact Hok].
  - exfalso. revert Hfail. change (GET_jobs (Some (one_job_store Up)))
      with (Success (items_of
              [ <["id" := VStr "7"]>
                  (Job.dump (Job.mk "face" None None ∅ "running" 40 [])) ])).
    discriminate.
Defined.

(** ** GET /schema *)

Section Shapes.
Context {rt : Runtime}.

Lemma Model_dump_dom m : dom (Model.dump m) = list_to_set (model_fields Model.t).
Proof. unfold Model.dump. cbn [model_fields Model.model]. set_solver. Qed.

Lemma Pipeline_dump_dom p : dom (Pipeline.dump p) = list_to_set (model_fields Pipeline.t).
Proof. unfold Pipeline.dump. cbn [model_fields Pipeline.model]. set_solver. Qed.

Lemma Dataset_dump_dom x : dom (Dataset.dump x) = list_to_set (model_fields Dataset.t).
Proof. unfold Dataset.dump. cbn [model_fields Dataset.model]. set_solver. Qed.
End Shapes.

(** C5. GET /schema always answers with what [get_schema] returns: exactly
    four descriptors named, in this order, model, pipeline, dataset, job,
    each with the field names of its shape in declaration order.  The names
    are not written into the handler: they are read from the declared
    fields of the shape, which are the fields its validator follows and the
    keys a record of the shape serialises to. *)
Theorem get_schema_descriptors {rt : Runtime} :
  GET_schema = Success get_schema ∧
  get_schema =
    {[ "collections" :=
         VList
           [ VDict {[ "name" := VStr "model";
                      "fields" := VList [ VStr "name"; VStr "description";
                                          VStr "identity_seed"; VStr "tags";
                                          VStr "style_preset"; VStr "face_embeddings";
                                          VStr "consistency_profile" ] ]};
             VDict {[ "name" := VStr "pipeline";
                      "fields" := VList [ VStr "name"; VStr "version"; VStr "is_active";
                                          VStr "nodes"; VStr "edges" ] ]};
             VDict {[ "name" := VStr "dataset";
                      "fields" := VList [ VStr "model_id"; VStr "title"; VStr "status";
                                          VStr "size"; VStr "items" ] ]};
             VDict {[ "name" := VStr "job";
                      "fields" := VList [ VStr "type"; VStr "model_id";
                                          VStr "pipeline_id"; VStr "params";
                                          VStr "status"; VStr "progress";
                                          VStr "output" ] ]} ] ]} ∧
  get_schema =
    {[ "collections" :=
         VList
           [ VDict {[ "name" := VStr "model";
                      "fields" := VList (VStr <$> (fname <$> Model.fields)) ]};
             VDict {[ "name" := VStr "pipeline";
                      "fields" := VList (VStr <$> (fname <$> Pipeline.fields)) ]};
             VDict {[ "name" := VStr "dataset";
                      "fields" := VList (VStr <$> (fname <$> Dataset.fields)) ]};
             VDict {[ "name" := VStr "job";
                      "fields" := VList (VStr <$> (fname <$> Job.fields)) ]} ] ]} ∧
  (∀ d, Model.dump <$> Model.validate d = validate_fields Model.fields d) ∧
  (∀ d, Pipeline.dump <$> Pipeline.validate d = validate_fields Pipeline.fields d) ∧
  (∀ d, Dataset.dump <$> Dataset.validate d = validate_fields Dataset.fields d) ∧
  (∀ d, Job.dump <$> Job.validate d = validate_fields Job.fields d) ∧
  (∀ m, dom (Model.dump m) = list_to_set (fname <$> Model.fields)) ∧
  (∀ p, dom (Pipeline.dump p) = list_to_set (fname <$> Pipeline.fields)) ∧
  (∀ x, dom (Dataset.dump x) = list_to_set (fname <$> Dataset.fields)) ∧
  (∀ j, dom (Job.dump j) = list_to_set (fname <$> Job.fields)).
Proof.
  split; [reflexivity|]. split; [reflexivity|]. split; [reflexivity|].
  split; [apply Model_follows_fields|]. split; [apply Pipeline_follows_fields|].
  split; [apply Dataset_follows_fields|]. split; [apply Job_follows_fields|].
  split; [|split; [|split]]; intros ?.
  - apply Model_dump_dom.
  - apply Pipeline_dump_dom.
  - apply Dataset_dump_dom.
  - apply Job_dump_dom.
Qed.

(** ** POST, then GET *)

Section RoundTrip.
Context {rt : Runtime}.

Lemma rename_id_fresh (d : dict) raw :
  d !! "_id" = None →
  rename_id (<["_id" := raw]> d) = <["id" := VStr (py_str raw)]> d.
Proof.
  intros Hnone. unfold rename_id. rewrite lookup_insert_eq.
  by rewrite delete_insert_eq, delete_id.
Qed.

Lemma Job_dump_no_raw j : Job.dump j !! "_id" = None.
Proof.
  apply not_elem_of_dom. rewrite Job_dump_dom. cbn [model_fields Job.model].
  set_solver.
Qed.

(** X22. A job posted to a reachable store is answered with its identifier
    and status, and the listing then has it last, after the records of the
    documents that were there, with its fields as validated and with the
    identifier of the reply as its [id].  GET /jobs returns that listing
    when every record of it can be rendered as JSON and the server error of
    the rendering otherwise. *)
Lemma post_then_get_job cs n (d : dict) (payload : Job.t) :
  Job.validate d = Some payload →
  let db' :=
    Some (mkStore Up
            (<["job" := (default [] (cs !! "job") ++
                         [<["_id" := VObjectId n]> (Job.dump payload)])%list]> cs)
            (N.succ n)) in
  let listing :=
    ((rename_id <$> default [] (cs !! "job")) ++
     [<["id" := VStr (py_str (VObjectId n))]> (Job.dump payload)])%list in
  POST_jobs (Some (mkStore Up cs n)) (VDict d) =
    (db', Success {[ "id" := VStr (py_str (VObjectId n));
                     "status" := VStr (Job.status payload) ]}) ∧
  (GET_jobs db' = Success {[ "items" := VList (VDict <$> listing) ]} ∨
   GET_jobs db' = ServerError EncodeError) ∧
  (GET_jobs db' = Success {[ "items" := VList (VDict <$> listing) ]} ↔
   Forall (λ r, encodable (VDict r) = true) listing).
Proof.
  intros Hval db' listing. split; [by apply POST_jobs_up|].
  assert (GET_jobs db' = respond (items_of listing)) as ->; [|apply respond_items].
  unfold db', GET_jobs, get_route, list_jobs, get_documents. cbn [link collections].
  rewrite lookup_insert_eq. cbn [store_call mbind exn_bind from_option]. unfold id.
  unfold listing.
  by rewrite fmap_app, <- (rename_id_fresh _ _ (Job_dump_no_raw payload)).
Qed.
End RoundTrip.

(** ** The examples of the specification, run *)

(** POST /jobs with type face, status running, progress 40 on an empty
    store, then GET /jobs. *)
Example post_job_running :
  POST_jobs (rt:=strict_runtime) (Some empty_store) (VDict body_running) =
    (Some (mkStore Up
             {[ "job" := [ <["_id" := VObjectId 0]>
                             (Job.dump (Job.mk "face" None None ∅ "running" 40 [])) ] ]}
             1),
     Success {[ "id" := VStr "0"; "status" := VStr "running" ]}) ∧
  GET_jobs (rt:=strict_runtime)
    (POST_jobs (rt:=strict_runtime) (Some empty_store) (VDict body_running)).1 =
    Success {[ "items" :=
      VList [ VDict {[ "id" := VStr "0"; "type" := VStr "face"; "model_id" := VNull;
                       "pipeline_id" := VNull; "params" := VDict ∅;
                       "status" := VStr "running"; "progress" := VInt 40;
                       "output" := VList [] ]} ] ]}.
Proof. split; reflexivity. Qed.

(** POST /generate with the task "sparkle" on an empty store, then GET
    /jobs. *)
Example post_generate_sparkle :
  POST_generate (rt:=strict_runtime) (Some empty_store)
    (VDict {[ "task" := VStr "sparkle" ]}) =
    (Some (mkStore Up
             {[ "job" := [ <["_id" := VObjectId 0]>
                             (Job.dump (Job.mk "dataset" None None ∅ "queued" 0 [])) ] ]}
             1),
     Success {[ "job_id" := VStr "0"; "status" := VStr "queued" ]}) ∧
  GET_jobs (rt:=strict_runtime)
    (POST_generate (rt:=strict_runtime) (Some empty_store)
       (VDict {[ "task" := VStr "sparkle" ]})).1 =
    Success {[ "items" :=
      VList [ VDict {[ "id" := VStr "0"; "type" := VStr "dataset"; "model_id" := VNull;
                       "pipeline_id" := VNull; "params" := VDict ∅;
                       "status" := VStr "queued"; "progress" := VInt 0;
                       "output" := VList [] ]} ] ]}.
Proof. split; reflexivity. Qed.

(** POST /jobs and POST /generate on an uninitialised store: the insert
    raises and the request fails with a server error. *)
Example post_without_store :
  POST_jobs (rt:=strict_runtime) None (VDict body_running)
    = (None, ServerError (StoreExn StoreUnavailable)) ∧
  POST_generate (rt:=strict_runtime) None (VDict {[ "task" := VStr "face" ]})
    = (None, ServerError (StoreExn StoreUnavailable)).
Proof. split; reflexivity. Qed.

(** GET /test on a store whose link is down: the message is cut at eighty
    characters and nothing is raised. *)
Example probe_link_down :
  test_database (Some (one_job_store (Down "timed out"))) env_prod =
  inr {[ "backend" := VStr "✅ Running";
         "database" := VStr "⚠️ Connected but Error: timed out";
         "database_url" := VStr "✅ Set";
         "database_name" := VStr "prod";
         "connection_status" := VStr "Connected";
         "collections" := VList [] ]}.
Proof. reflexivity. Qed.

(** POST /jobs with a NaN inside params is valid and stored; GET /jobs then
    fails to render the listing. *)
Example post_nan_then_get :
  POST_jobs (rt:=strict_runtime) (Some empty_store)
    (VDict {[ "type" := VStr "face";
              "params" := VDict {[ "x" := VFloat float_nan ]} ]}) =
    (Some (mkStore Up
             {[ "job" := [ <["_id" := VObjectId 0]>
                             (Job.dump (Job.mk "face" None None
                                          {[ "x" := VFloat float_nan ]} "queued" 0 [])) ] ]}
             1),
     Success {[ "id" := VStr "0"; "status" := VStr "queued" ]}) ∧
  GET_jobs (rt:=strict_runtime)
    (POST_jobs (rt:=strict_runtime) (Some empty_store)
       (VDict {[ "type" := VStr "face";
                 "params" := VDict {[ "x" := VFloat float_nan ]} ]})).1 =
    ServerError EncodeError.
Proof. split; reflexivity. Qed.

(** Two bodies without a type: the error reports the whole body, so the one
    that holds a NaN gets the server error and the empty one the client
    error; a wrong type next to a NaN in params gets the client error, as
    only the type is reported. *)
Example post_jobs_invalid_bodies :
  POST_jobs (rt:=strict_runtime) None (VDict {[ "colour" := VFloat float_nan ]})
    = (None, ServerError EncodeError) ∧
  POST_jobs (rt:=strict_runtime) None (VDict ∅) = (None, Unprocessable) ∧
  POST_jobs (rt:=strict_runtime) None
    (VDict {[ "type" := VStr "sparkle";
              "params" := VDict {[ "x" := VFloat float_nan ]} ]})
    = (None, Unprocessable).
Proof. repeat split; reflexivity. Qed.

Example str_take_code_points : str_take 3 "✅ Running" = "✅ R".
Proof. reflexivity. Qed.

(** * Further properties of the shapes and the handlers *)

(** ** Serialise, then validate *)

Lemma literal_member allowed s : s ∈ allowed → literal allowed (VStr s) = Some s.
Proof. intros Hin. unfold literal. by rewrite bool_decide_eq_true_2. Qed.

(** Lookups in a dictionary written out key by key. *)
Ltac lookups :=
  repeat first
    [ rewrite lookup_insert_eq
    | rewrite lookup_insert_ne by done
    | rewrite lookup_singleton_eq
    | rewrite lookup_singleton_ne by done
    | rewrite lookup_empty ].

(** Validation of a serialised record, field after field. *)
Ltac revalidate lemmas :=
  lookups;
  repeat (cbn [mbind option_bind dict_any int_ bool_ str_];
          first [ rewrite literal_member by done | lemmas ]).

Lemma list_of_str_fmap (l : list string) : list_of str_ (VList (VStr <$> l)) = Some l.
Proof. unfold list_of. by apply mapM_fmap_Some. Qed.

Lemma list_of_dict_fmap (l : list dict) : list_of dict_any (VList (VDict <$> l)) = Some l.
Proof. unfold list_of. by apply mapM_fmap_Some. Qed.


(** X1. A job whose type and status are among the declared literals
    survives serialisation: validating what [model_dump] gives returns the
    job itself. *)
Theorem Job_round_trip {rt : Runtime} (j : Job.t) :
  Job.type j ∈ Job.type_values →
  Job.status j ∈ Job.status_values →
  model_validate (model_dump j) = Some j.
Proof.
  intros Ht Hs. destruct j as [ty mid pid pa st pr out].
  cbn [model_validate model_dump Job.model] in *.
  unfold Job.validate, Job.dump, required, defaulted. cbn [Job.type Job.model_id
    Job.pipeline_id Job.params Job.status Job.progress Job.output] in *.
  revalidate ltac:(first [rewrite optional_of_opt_str | rewrite list_of_dict_fmap]).
  done.
Qed.

Lemma Job_round_trip_witness :
  Job.validate (rt:=strict_runtime) (Job.dump sample_job) = Some sample_job.
Proof.
  apply (Job_round_trip (rt:=strict_runtime) sample_job);
    apply (bool_decide_unpack _); vm_compute; exact I.
Defined.

(** X2. A model and a pipeline survive serialisation as they are: validating
    what [model_dump] gives returns the record itself, whatever it holds. *)
Theorem Model_Pipeline_round_trip {rt : Runtime} :
  (∀ m : Model.t, model_validate (model_dump m) = Some m) ∧
  (∀ p : Pipeline.t, model_validate (model_dump p) = Some p).
Proof.
  split.
  - intros [n de se ta sp fe cp]. cbn [model_validate model_dump Model.model].
    unfold Model.validate, Model.dump, required, defaulted.
    cbn [Model.name Model.description Model.identity_seed Model.tags Model.style_preset
           Model.face_embeddings Model.consistency_profile].
    revalidate ltac:(first [rewrite optional_of_opt_str | rewrite list_of_str_fmap]).
    destruct fe as [l|]; [|done].
    unfold optional. by rewrite list_of_str_fmap.
  - intros [n v a no ed]. cbn [model_validate model_dump Pipeline.model].
    unfold Pipeline.validate, Pipeline.dump, required, defaulted.
    cbn [Pipeline.name Pipeline.version Pipeline.is_active Pipeline.nodes Pipeline.edges].
    revalidate ltac:(rewrite list_of_dict_fmap). done.
Qed.

(** X3. A dataset whose status is among the declared literals survives
    serialisation. *)
Theorem Dataset_round_trip {rt : Runtime} (x : Dataset.t) :
  Dataset.status x ∈ Dataset.status_values →
  model_validate (model_dump x) = Some x.
Proof.
  intros Hs. destruct x as [mid ti st sz it].
  cbn [model_validate model_dump Dataset.model] in *.
  unfold Dataset.validate, Dataset.dump, required, defaulted.
  cbn [Dataset.model_id Dataset.title Dataset.status Dataset.size Dataset.items] in *.
  revalidate ltac:(first [rewrite optional_of_opt_str | rewrite list_of_dict_fmap]).
  done.
Qed.

Lemma Dataset_round_trip_witness :
  Dataset.validate (rt:=strict_runtime) (Dataset.dump sample_dataset)
  = Some sample_dataset.
Proof.
  apply (Dataset_round_trip (rt:=strict_runtime) sample_dataset).
  apply (bool_decide_unpack _). vm_compute. exact I.
Defined.

(** X4. A user survives serialisation, and a body that lacks one of name,
    email, address is not a user. *)
Theorem User_round_trip {rt : Runtime} :
  (∀ u : User.t, model_validate (model_dump u) = Some u) ∧
  (∀ d : dict, d !! "name" = None ∨ d !! "email" = None ∨ d !! "address" = None →
               User.validate d = None).
Proof.
  split.
  - intros [n e a ag ac]. cbn [model_validate model_dump User.model].
    unfold User.validate, User.dump, required, defaulted.
    cbn [User.name User.email User.address User.age User.is_active].
    revalidate ltac:(fail). by destruct ag.
  - intros d Hmiss. unfold User.validate, required.
    destruct Hmiss as [-> | [-> | ->]]; [done| |].
    + by destruct (d !! "name" ≫= str_).
    + destruct (d !! "name" ≫= str_); [|done].
      by destruct (d !! "email" ≫= str_).
Qed.

Lemma User_round_trip_witness :
  User.validate (rt:=strict_runtime) {[ "name" := VStr "Aisha"; "email" := VStr "a@x.io" ]}
  = None.
Proof.
  apply (proj2 (User_round_trip (rt:=strict_runtime))).
  right. right. reflexivity.
Defined.

(** ** What validation keeps and what it ignores *)

Lemma optional_str_inv v o : optional str_ v = Some o → v = of_opt_str o.
Proof.
  unfold optional. destruct v; simpl; intros; simplify_eq; done.
Qed.

Lemma dict_any_inv v d : dict_any v = Some d → v = VDict d.
Proof. destruct v; simpl; intros; by simplify_eq. Qed.

Lemma list_of_dict_inv v l : list_of dict_any v = Some l → v = VList (VDict <$> l).
Proof.
  unfold list_of. destruct v as [| | | | |vs| |]; try done.
  intros Hm. f_equal. apply mapM_Some in Hm.
  induction Hm as [|x y xs ys Hxy _ IH]; [done|].
  cbn [fmap list_fmap]. f_equal; [by apply dict_any_inv|exact IH].
Qed.

(** X5. A validated job has a declared type and a declared status, and it is
    stable: serialising it and validating the result gives the same job. *)
Theorem Job_validated_stable {rt : Runtime} (d : dict) (j : Job.t) :
  Job.validate d = Some j →
  Job.type j ∈ Job.type_values ∧
  Job.status j ∈ Job.status_values ∧
  Job.validate (Job.dump j) = Some j.
Proof.
  intros Hval.
  assert (Job.type j ∈ Job.type_values) as Ht by by eapply Job_type_allowed.
  assert (Job.status j ∈ Job.status_values) as Hs by by eapply Job_status_allowed.
  split; [done|]. split; [done|].
  destruct j as [ty mid pid pa st pr out]. cbn [Job.type Job.status] in *.
  unfold Job.validate, Job.dump, required, defaulted.
  cbn [Job.type Job.model_id Job.pipeline_id Job.params Job.status Job.progress
         Job.output].
  revalidate ltac:(first [rewrite optional_of_opt_str | rewrite list_of_dict_fmap]).
  done.
Qed.

Lemma Job_validated_stable_witness :
  Job.validate (rt:=strict_runtime)
    (Job.dump (Job.mk "face" None None ∅ "running" 40 []))
  = Some (Job.mk "face" None None ∅ "running" 40 []).
Proof.
  assert (Job.validate (rt:=strict_runtime) body_running
          = Some (Job.mk "face" None None ∅ "running" 40 [])) as Hval by reflexivity.
  exact (proj2 (proj2 (Job_validated_stable (rt:=strict_runtime) _ _ Hval))).
Defined.

(** X6. Validation does not alter what the body supplies for type,
    model_id, pipeline_id, params, status and output: on each of these keys
    the serialised record holds the supplied value (progress alone may be
    coerced). *)
Theorem Job_validate_keeps_supplied {rt : Runtime} (d : dict) (j : Job.t) (k : string)
    (v : Value) :
  Job.validate d = Some j →
  k ∈ ["type"; "model_id"; "pipeline_id"; "params"; "status"; "output"] →
  d !! k = Some v →
  Job.dump j !! k = Some v.
Proof.
  intros (Ht & Hm & Hp & Hpa & Hs & _ & Ho)%Job_validate_Some Hk Hv.
  unfold required, defaulted in *. unfold Job.dump.
  rewrite !elem_of_cons, elem_of_nil in Hk.
  destruct Hk as [-> | [-> | [-> | [-> | [-> | [-> | []]]]]]];
    rewrite Hv in *; lookups; f_equal.
  - cbn [mbind option_bind] in Ht. by apply literal_Some in Ht as [-> _].
  - symmetry. by apply optional_str_inv.
  - symmetry. by apply optional_str_inv.
  - symmetry. by apply dict_any_inv.
  - by apply literal_Some in Hs as [-> _].
  - symmetry. by apply list_of_dict_inv.
Qed.

Lemma Job_validate_keeps_supplied_witness :
  Job.dump (Job.mk "face" None None ∅ "running" 40 []) !! "status"
  = Some (VStr "running").
Proof.
  refine (Job_validate_keeps_supplied (rt:=strict_runtime) body_running
            (Job.mk "face" None None ∅ "running" 40 []) "status" (VStr "running")
            _ _ _).
  - reflexivity.
  - apply (bool_decide_unpack _). vm_compute. exact I.
  - reflexivity.
Defined.

(** X7. Keys that are no field of Job are ignored by validation: two bodies
    that agree on the seven declared fields validate alike, and when they
    are valid POST /jobs treats them alike on every store.  (Of two invalid
    bodies the error bodies may differ, since they report inputs.) *)
Theorem Job_unknown_keys_ignored {rt : Runtime} (db : DB) (d d' : dict) :
  (∀ k, k ∈ ["type"; "model_id"; "pipeline_id"; "params"; "status"; "progress";
             "output"] → d !! k = d' !! k) →
  Job.validate d = Job.validate d' ∧
  (is_Some (Job.validate d) → POST_jobs db (VDict d) = POST_jobs db (VDict d')).
Proof.
  intros Hagree.
  assert (Job.validate d = Job.validate d') as Hsame.
  { unfold Job.validate, required, defaulted.
    rewrite !(Hagree _) by set_solver. done. }
  split; [done|]. intros [payload Hval].
  rewrite (POST_jobs_valid _ _ _ Hval).
  rewrite Hsame in Hval. by rewrite (POST_jobs_valid _ _ _ Hval).
Qed.

Lemma Job_unknown_keys_ignored_witness :
  Job.validate (rt:=strict_runtime) body_extra
    = Job.validate (rt:=strict_runtime) body_running ∧
  POST_jobs (rt:=strict_runtime) None (VDict body_extra)
    = POST_jobs (rt:=strict_runtime) None (VDict body_running).
Proof.
  destruct (Job_unknown_keys_ignored (rt:=strict_runtime) None
              body_extra body_running) as [Hsame Hpost].
  - intros k Hk. rewrite !elem_of_cons, elem_of_nil in Hk.
    destruct Hk as [-> | [-> | [-> | [-> | [-> | [-> | [-> | []]]]]]]]; reflexivity.
  - split; [exact Hsame|]. apply Hpost. eexists. reflexivity.
Defined.

(** X8. An explicit null is accepted for model_id and for pipeline_id, where
    it means the same as leaving the key out; it is rejected for type,
    params, status and output, which are not optional. *)
Theorem Job_explicit_null {rt : Runtime} (d : dict) :
  Job.validate (<["model_id" := VNull]> d) = Job.validate (delete "model_id" d) ∧
  Job.validate (<["pipeline_id" := VNull]> d) = Job.validate (delete "pipeline_id" d) ∧
  Job.validate (<["type" := VNull]> d) = None ∧
  Job.validate (<["params" := VNull]> d) = None ∧
  Job.validate (<["status" := VNull]> d) = None ∧
  Job.validate (<["output" := VNull]> d) = None.
Proof.
  split; [|split].
  - unfold Job.validate, required, defaulted. lookups.
    by rewrite lookup_delete_eq, !lookup_delete_ne by done.
  - unfold Job.validate, required, defaulted. lookups.
    by rewrite lookup_delete_eq, !lookup_delete_ne by done.
  - split; [|split; [|split]];
      match goal with |- ?v = None => destruct v as [j|] eqn:Hval; [|done] end;
      apply Job_validate_Some in Hval as (Ht & _ & _ & Hpa & Hs & _ & Ho);
      unfold required, defaulted in *.
    + by rewrite lookup_insert_eq in Ht.
    + by rewrite lookup_insert_eq in Hpa.
    + by rewrite lookup_insert_eq in Hs.
    + by rewrite lookup_insert_eq in Ho.
Qed.

(** ** Defaults of the other shapes *)

(** Splits a successful validation into its fields. *)
Ltac split_validation H :=
  repeat (apply bind_Some in H as (? & ? & H)); simplify_eq.

(** Each omitted field: the default is what the record holds. *)
Ltac by_default :=
  unfold defaulted in *;
  repeat split; intros Hnone; rewrite Hnone in *; congruence.

(** X9. In a validated model every omitted optional field has its default:
    description, identity_seed, style_preset and face_embeddings null, tags
    empty, consistency_profile the empty mapping; a body that holds a name
    and nothing else is valid. *)
Theorem Model_defaults {rt : Runtime} (d : dict) (m : Model.t) :
  (Model.validate d = Some m →
     (d !! "description" = None → Model.description m = None) ∧
     (d !! "identity_seed" = None → Model.identity_seed m = None) ∧
     (d !! "tags" = None → Model.tags m = []) ∧
     (d !! "style_preset" = None → Model.style_preset m = None) ∧
     (d !! "face_embeddings" = None → Model.face_embeddings m = None) ∧
     (d !! "consistency_profile" = None → Model.consistency_profile m = ∅)) ∧
  ∀ s, Model.validate {[ "name" := VStr s ]} = Some (Model.mk s None None [] None None ∅).
Proof.
  split.
  - unfold Model.validate. intros Hv. split_validation Hv.
    cbn [Model.description Model.identity_seed Model.tags Model.style_preset
           Model.face_embeddings Model.consistency_profile].
    by_default.
  - intros s. unfold Model.validate, required, defaulted. by lookups.
Qed.

Lemma Model_defaults_witness :
  Model.validate {[ "name" := VStr "Aisha v1"; "style_preset" := VStr "studio" ]}
    = Some (Model.mk "Aisha v1" None None [] (Some "studio") None ∅) ∧
  Model.tags (Model.mk "Aisha v1" None None [] (Some "studio") None ∅) = [].
Proof.
  assert (Model.validate {[ "name" := VStr "Aisha v1"; "style_preset" := VStr "studio" ]}
          = Some (Model.mk "Aisha v1" None None [] (Some "studio") None ∅)) as Hval
    by reflexivity.
  split; [exact Hval|].
  refine (proj1 (proj2 (proj2 (proj1
    (Model_defaults (rt:=strict_runtime) _ _) Hval))) _).
  reflexivity.
Defined.

(** X10. In a validated pipeline every omitted optional field has its
    default: version "1.0", is_active true, nodes and edges empty; a body
    that holds a name and nothing else is valid. *)
Theorem Pipeline_defaults {rt : Runtime} (d : dict) (p : Pipeline.t) :
  (Pipeline.validate d = Some p →
     (d !! "version" = None → Pipeline.version p = "1.0") ∧
     (d !! "is_active" = None → Pipeline.is_active p = true) ∧
     (d !! "nodes" = None → Pipeline.nodes p = []) ∧
     (d !! "edges" = None → Pipeline.edges p = [])) ∧
  ∀ s, Pipeline.validate {[ "name" := VStr s ]} = Some (Pipeline.mk s "1.0" true [] []).
Proof.
  split.
  - unfold Pipeline.validate. intros Hv. split_validation Hv.
    cbn [Pipeline.version Pipeline.is_active Pipeline.nodes Pipeline.edges].
    by_default.
  - intros s. unfold Pipeline.validate, required, defaulted. by lookups.
Qed.

Lemma Pipeline_defaults_witness :
  Pipeline.validate (rt:=strict_runtime)
    {[ "name" := VStr "portrait"; "version" := VStr "2.1" ]}
    = Some (Pipeline.mk "portrait" "2.1" true [] []) ∧
  Pipeline.is_active (Pipeline.mk "portrait" "2.1" true [] []) = true.
Proof.
  assert (Pipeline.validate (rt:=strict_runtime)
            {[ "name" := VStr "portrait"; "version" := VStr "2.1" ]}
          = Some (Pipeline.mk "portrait" "2.1" true [] [])) as Hval by reflexivity.
  split; [exact Hval|].
  refine (proj1 (proj2 (proj1 (Pipeline_defaults (rt:=strict_runtime) _ _) Hval)) _).
  reflexivity.
Defined.

(** X11. In a validated dataset every omitted optional field has its
    default: model_id null, status "idle", size 0, items empty; a body that
    holds a title and nothing else is valid; a validated dataset has a
    declared status. *)
Theorem Dataset_defaults {rt : Runtime} (d : dict) (x : Dataset.t) :
  (Dataset.validate d = Some x →
     (d !! "model_id" = None → Dataset.model_id x = None) ∧
     (d !! "status" = None → Dataset.status x = "idle") ∧
     (d !! "size" = None → Dataset.size x = 0%Z) ∧
     (d !! "items" = None → Dataset.items x = []) ∧
     Dataset.status x ∈ Dataset.status_values) ∧
  ∀ s, Dataset.validate {[ "title" := VStr s ]} = Some (Dataset.mk None s "idle" 0 []).
Proof.
  split.
  - unfold Dataset.validate. intros Hv. split_validation Hv.
    cbn [Dataset.model_id Dataset.status Dataset.size Dataset.items].
    split; [|split; [|split; [|split]]]; try by_default.
    unfold defaulted in *. destruct (d !! "status").
    + match goal with H : literal _ _ = Some _ |- _ =>
        by apply literal_Some in H as [_ ?] end.
    + simplify_eq. unfold Dataset.status_values. set_solver.
  - intros s. unfold Dataset.validate, required, defaulted. by lookups.
Qed.

Lemma Dataset_defaults_witness :
  Dataset.validate (rt:=strict_runtime) {[ "title" := VStr "faces"; "size" := VInt 12 ]}
    = Some (Dataset.mk None "faces" "idle" 12 []) ∧
  Dataset.status (Dataset.mk None "faces" "idle" 12 []) = "idle".
Proof.
  assert (Dataset.validate (rt:=strict_runtime)
            {[ "title" := VStr "faces"; "size" := VInt 12 ]}
          = Some (Dataset.mk None "faces" "idle" 12 [])) as Hval by reflexivity.
  split; [exact Hval|].
  refine (proj1 (proj2 (proj1 (Dataset_defaults (rt:=strict_runtime) _ _) Hval)) _).
  reflexivity.
Defined.

(** X12. In a validated generate request every omitted optional field has
    its default: model_id and pipeline_id null, promptless true, params the
    empty mapping; a body that holds a task string and nothing else is
    valid, whatever the string. *)
Theorem GenerateRequest_defaults {rt : Runtime} (d : dict) (r : GenerateRequest.t) :
  (GenerateRequest.validate d = Some r →
     (d !! "model_id" = None → GenerateRequest.model_id r = None) ∧
     (d !! "pipeline_id" = None → GenerateRequest.pipeline_id r = None) ∧
     (d !! "promptless" = None → GenerateRequest.promptless r = true) ∧
     (d !! "params" = None → GenerateRequest.params r = ∅)) ∧
  ∀ s, GenerateRequest.validate {[ "task" := VStr s ]}
       = Some (GenerateRequest.mk None None s true ∅).
Proof.
  split.
  - unfold GenerateRequest.validate. intros Hv. split_validation Hv.
    cbn [GenerateRequest.model_id GenerateRequest.pipeline_id
           GenerateRequest.promptless GenerateRequest.params].
    by_default.
  - intros s. unfold GenerateRequest.validate, required, defaulted. by lookups.
Qed.

Lemma GenerateRequest_defaults_witness :
  GenerateRequest.validate (rt:=strict_runtime)
    {[ "task" := VStr "face"; "model_id" := VStr "m1" ]}
    = Some (GenerateRequest.mk (Some "m1") None "face" true ∅) ∧
  GenerateRequest.promptless (GenerateRequest.mk (Some "m1") None "face" true ∅) = true.
Proof.
  assert (GenerateRequest.validate (rt:=strict_runtime)
            {[ "task" := VStr "face"; "model_id" := VStr "m1" ]}
          = Some (GenerateRequest.mk (Some "m1") None "face" true ∅)) as Hval
    by reflexivity.
  split; [exact Hval|].
  refine (proj1 (proj2 (proj2 (proj1
    (GenerateRequest_defaults (rt:=strict_runtime) _ _) Hval))) _).
  reflexivity.
Defined.

(** ** The POST routes *)

Section PostRoutes.
Context {rt : Runtime}.


End PostRoutes.





(** X15. A valid POST /generate body can only fail on the store: the route
    stores the job built from the request and answers with its identifier,
    or answers the server error of the store fault; it never answers the
    client error and the job constructor never raises. *)
Theorem generate_route_outcome {rt : Runtime} (db : DB) (d : dict)
    (req : GenerateRequest.t) :
  GenerateRequest.validate d = Some req →
  POST_generate db (VDict d) =
    match create_document db "job"
            (Job.mk (generate_type req) (GenerateRequest.model_id req)
               (GenerateRequest.pipeline_id req) (GenerateRequest.params req)
               "queued" 0 []) with
    | inr (db', job_id) =>
        (db', Success {[ "job_id" := VStr job_id; "status" := VStr "queued" ]})
    | inl e => (db, ServerError (StoreExn e))
    end.
Proof.
  intros Hval. unfold POST_generate, post_route.
  cbn [dict_any mbind option_bind model_validate GenerateRequest.model].
  rewrite Hval, (generate_assets_eq _ _ _ (generate_job_eq req)).
  by destruct (create_document _ _ _) as [|[]].
Qed.

Lemma generate_route_outcome_witness :
  POST_generate (rt:=strict_runtime) None (VDict {[ "task" := VStr "sparkle" ]})
  = (None, ServerError (StoreExn StoreUnavailable)).
Proof.
  refine (generate_route_outcome (rt:=strict_runtime) None
            {[ "task" := VStr "sparkle" ]}
            (GenerateRequest.mk None None "sparkle" true ∅) _).
  reflexivity.
Defined.

(** X16. The job built for a generate request carries the request's
    model_id, pipeline_id and params unchanged (the [or {}] on params
    changes nothing), has no output, and has a declared type. *)
Theorem generate_job_passthrough {rt : Runtime} (req : GenerateRequest.t) :
  ∃ job : Job.t,
    generate_job req = inr job ∧
    Job.model_id job = GenerateRequest.model_id req ∧
    Job.pipeline_id job = GenerateRequest.pipeline_id req ∧
    Job.params job = GenerateRequest.params req ∧
    Job.output job = [] ∧
    Job.type job ∈ Job.type_values.
Proof.
  eexists. split; [apply generate_job_eq|].
  cbn [Job.model_id Job.pipeline_id Job.params Job.output Job.type].
  repeat split. apply generate_type_allowed.
Qed.

(** X17. POST /generate is POST /jobs on the job it builds: on every store
    [generate_assets] and [create_job] fail alike or leave the same store,
    with the same identifier (under [job_id] and under [id]) and the same
    status in their replies. *)
Theorem generate_as_create_job {rt : Runtime} (db : DB) (req : GenerateRequest.t) :
  ∃ job : Job.t,
    generate_job req = inr job ∧
    match generate_assets db req, create_job db job with
    | inr (db1, r1), inr (db2, r2) =>
        db1 = db2 ∧ r1 !! "job_id" = r2 !! "id" ∧ r1 !! "status" = r2 !! "status" ∧
        dom r1 = {[ "job_id"; "status" ]} ∧ dom r2 = {[ "id"; "status" ]}
    | inl e1, inl e2 => e1 = e2
    | _, _ => False
    end.
Proof.
  eexists. split; [apply generate_job_eq|].
  rewrite (generate_assets_eq _ _ _ (generate_job_eq req)). unfold create_job.
  destruct (create_document _ _ _) as [e|[db' i]]; cbn [store_call mbind exn_bind].
  - done.
  - split; [done|]. cbn [Job.status]. split; [by lookups|]. split; [by lookups|].
    split; set_solver.
Qed.

(** ** The listing routes, beyond the identifier *)



(** X19. What the listing loop does to one document: a document without
    [_id] is returned as it is; otherwise its keys are those of the
    document with [_id] replaced by [id]; and a second pass changes
    nothing. *)
Theorem rename_id_keys {rt : Runtime} (d : dict) :
  (d !! "_id" = None → rename_id d = d) ∧
  (is_Some (d !! "_id") → dom (rename_id d) = {[ "id" ]} ∪ dom d ∖ {[ "_id" ]}) ∧
  rename_id (rename_id d) = rename_id d.
Proof.
  split; [|split].
  - unfold rename_id. by intros ->.
  - intros [raw Hraw]. unfold rename_id. rewrite Hraw.
    by rewrite dom_insert_L, dom_delete_L.
  - unfold rename_id at 1. by rewrite rename_id_no_raw.
Qed.

Lemma rename_id_keys_witness :
  rename_id (rt:=strict_runtime) {[ "name" := VStr "Aisha v1" ]}
    = {[ "name" := VStr "Aisha v1" ]} ∧
  dom (rename_id (rt:=strict_runtime)
         {[ "_id" := VObjectId 3; "name" := VStr "Aisha v1" ]})
    = {[ "id" ]} ∪ dom ({[ "_id" := VObjectId 3; "name" := VStr "Aisha v1" ]} : dict)
                     ∖ {[ "_id" ]}.
Proof.
  split.
  - apply (proj1 (rename_id_keys (rt:=strict_runtime) _)). reflexivity.
  - apply (proj1 (proj2 (rename_id_keys (rt:=strict_runtime) _))).
    exists (VObjectId 3). reflexivity.
Defined.

(** ** POST, then GET, for models and pipelines *)

Section RoundTripMore.
Context {rt : Runtime}.

Lemma Model_dump_no_raw m : Model.dump m !! "_id" = None.
Proof.
  apply not_elem_of_dom. rewrite Model_dump_dom. cbn [model_fields Model.model].
  set_solver.
Qed.

Lemma Pipeline_dump_no_raw p : Pipeline.dump p !! "_id" = None.
Proof.
  apply not_elem_of_dom. rewrite Pipeline_dump_dom. cbn [model_fields Pipeline.model].
  set_solver.
Qed.
End RoundTripMore.

(** X20. A model or a pipeline posted to a reachable store is answered with
    [{id}] alone, and the listing of its collection then has it last, after
    the records of the documents that were there, with its fields as
    validated and with the identifier of the reply as its [id].  The GET
    route returns that listing when every record of it can be rendered as
    JSON and the server error of the rendering otherwise. *)
Theorem created_record_is_listed {rt : Runtime} (cs : gmap string (list dict)) (n : N)
    (d : dict) :
  (∀ m, Model.validate d = Some m →
     let db' :=
       Some (mkStore Up
               (<["model" := (default [] (cs !! "model") ++
                              [<["_id" := VObjectId n]> (Model.dump m)])%list]> cs)
               (N.succ n)) in
     let listing :=
       ((rename_id <$> default [] (cs !! "model")) ++
        [<["id" := VStr (py_str (VObjectId n))]> (Model.dump m)])%list in
     POST_models (Some (mkStore Up cs n)) (VDict d) =
       (db', Success {[ "id" := VStr (py_str (VObjectId n)) ]}) ∧
     (GET_models db' = Success {[ "items" := VList (VDict <$> listing) ]} ∨
      GET_models db' = ServerError EncodeError) ∧
     (GET_models db' = Success {[ "items" := VList (VDict <$> listing) ]} ↔
      Forall (λ r, encodable (VDict r) = true) listing)) ∧
  (∀ p, Pipeline.validate d = Some p →
     let db' :=
       Some (mkStore Up
               (<["pipeline" := (default [] (cs !! "pipeline") ++
                                 [<["_id" := VObjectId n]> (Pipeline.dump p)])%list]> cs)
               (N.succ n)) in
     let listing :=
       ((rename_id <$> default [] (cs !! "pipeline")) ++
        [<["id" := VStr (py_str (VObjectId n))]> (Pipeline.dump p)])%list in
     POST_pipelines (Some (mkStore Up cs n)) (VDict d) =
       (db', Success {[ "id" := VStr (py_str (VObjectId n)) ]}) ∧
     (GET_pipelines db' = Success {[ "items" := VList (VDict <$> listing) ]} ∨
      GET_pipelines db' = ServerError EncodeError) ∧
     (GET_pipelines db' = Success {[ "items" := VList (VDict <$> listing) ]} ↔
      Forall (λ r, encodable (VDict r) = true) listing)).
Proof.
  split.
  - intros m Hval db' listing. split.
    + unfold POST_models, post_route.
      cbn [dict_any mbind option_bind model_validate Model.model]. rewrite Hval.
      unfold create_model. by rewrite create_document_up.
    + assert (GET_models db' = respond (items_of listing)) as ->;
        [|apply respond_items].
      unfold db', GET_models, get_route, list_models, get_documents.
      cbn [link collections].
      rewrite lookup_insert_eq. cbn [store_call mbind exn_bind from_option]. unfold id.
      unfold listing.
      by rewrite fmap_app, <- (rename_id_fresh _ _ (Model_dump_no_raw m)).
  - intros p Hval db' listing. split.
    + unfold POST_pipelines, post_route.
      cbn [dict_any mbind option_bind model_validate Pipeline.model]. rewrite Hval.
      unfold create_pipeline. by rewrite create_document_up.
    + assert (GET_pipelines db' = respond (items_of listing)) as ->;
        [|apply respond_items].
      unfold db', GET_pipelines, get_route, list_pipelines, get_documents.
      cbn [link collections].
      rewrite lookup_insert_eq. cbn [store_call mbind exn_bind from_option]. unfold id.
      unfold listing.
      by rewrite fmap_app, <- (rename_id_fresh _ _ (Pipeline_dump_no_raw p)).
Qed.

Lemma created_record_is_listed_witness :
  Pipeline.validate (rt:=strict_runtime) {[ "name" := VStr "portrait" ]}
    = Some (Pipeline.mk "portrait" "1.0" true [] []) ∧
  GET_pipelines (rt:=strict_runtime)
    (Some (mkStore Up
             {[ "pipeline" := [ <["_id" := VObjectId 0]>
                                  (Pipeline.dump (Pipeline.mk "portrait" "1.0" true [] [])) ] ]}
             1)) =
    Success {[ "items" := VList [ VDict (<["id" := VStr "0"]>
                (Pipeline.dump (Pipeline.mk "portrait" "1.0" true [] []))) ] ]}.
Proof.
  assert (Pipeline.validate (rt:=strict_runtime) {[ "name" := VStr "portrait" ]}
          = Some (Pipeline.mk "portrait" "1.0" true [] [])) as Hval by reflexivity.
  split; [exact Hval|].
  destruct (proj2 (created_record_is_listed (rt:=strict_runtime) ∅ 0
                     {[ "name" := VStr "portrait" ]}) _ Hval)
    as (_ & _ & Hget).
  apply Hget. repeat constructor.
Defined.

(** ** The message of a failed probe *)

Section Truncation.

Lemma str_take_prefix n s : ∃ rest, s = str_take n s ++ rest.
Proof.
  revert n. induction s as [|c s IH]; intros n; [by exists ""|].
  cbn [str_take]. destruct (is_continuation c).
  - destruct (IH n) as [rest Hrest]. exists rest. exact (f_equal (String c) Hrest).
  - destruct n as [|n]; [by eexists|].
    destruct (IH n) as [rest Hrest]. exists rest. exact (f_equal (String c) Hrest).
Qed.

Lemma str_take_code_points_min n s :
  code_points (str_take n s) = n `min` code_points s.
Proof.
  revert n. induction s as [|c s IH]; intros n; cbn [str_take code_points].
  - lia.
  - destruct (is_continuation c) eqn:Hc.
    + cbn [code_points]. by rewrite Hc.
    + destruct n as [|n]; [done|]. cbn [code_points]. rewrite Hc, IH. lia.
Qed.

Lemma str_take_all n s : (code_points s ≤ n)%nat → str_take n s = s.
Proof.
  revert n. induction s as [|c s IH]; intros n; cbn [str_take code_points]; [done|].
  destruct (is_continuation c).
  - intros Hle. by rewrite IH.
  - destruct n as [|n]; [lia|]. intros Hle. rewrite IH by lia. done.
Qed.
End Truncation.

(** X21. When listing the collections raises, the [database] entry is the
    fixed prefix followed by the first eighty characters of the message:
    a prefix of the message with eighty code points, or the whole message
    when it has no more than eighty. *)
Theorem probe_error_truncated (st : Store) (env : environ) (msg : string) :
  list_collection_names st = inl msg →
  ∃ shown rest,
    reported (test_database (Some st) env) "database" =
      Some (VStr ("⚠️ Connected but Error: " ++ shown)) ∧
    msg = shown ++ rest ∧
    code_points shown = 80 `min` code_points msg ∧
    ((code_points msg ≤ 80)%nat → shown = msg).
Proof.
  intros Hfail. destruct (str_take_prefix 80 msg) as [rest Hrest].
  exists (str_take 80 msg), rest. split; [|split; [done|split]].
  - rewrite test_database_eq, Hfail. unfold reported. by rewrite lookup_insert_eq.
  - apply str_take_code_points_min.
  - apply str_take_all.
Qed.

Lemma probe_error_truncated_witness :
  ∃ shown rest,
    reported (test_database (Some (one_job_store (Down "timed out"))) env_prod)
      "database" = Some (VStr ("⚠️ Connected but Error: " ++ shown)) ∧
    "timed out" = shown ++ rest.
Proof.
  destruct (probe_error_truncated (one_job_store (Down "timed out")) env_prod
              "timed out" eq_refl) as (shown & rest & Hshown & Hmsg & _).
  exists shown, rest. split; [exact Hshown|exact Hmsg].
Defined.

(** ** A posted job, listed *)

(** The round trip of a job, run on the empty store. *)
Lemma post_then_get_job_witness :
  Job.validate (rt:=strict_runtime) body_running
    = Some (Job.mk "face" None None ∅ "running" 40 []) ∧
  GET_jobs (rt:=strict_runtime)
    (Some (mkStore Up
             {[ "job" := [ <["_id" := VObjectId 0]>
                             (Job.dump (Job.mk "face" None None ∅ "running" 40 [])) ] ]}
             1)) =
    Success {[ "items" := VList [ VDict (<["id" := VStr "0"]>
                (Job.dump (Job.mk "face" None None ∅ "running" 40 []))) ] ]}.
Proof.
  assert (Job.validate (rt:=strict_runtime) body_running
          = Some (Job.mk "face" None None ∅ "running" 40 [])) as Hval by reflexivity.
  split; [exact Hval|].
  destruct (post_then_get_job (rt:=strict_runtime) ∅ 0 body_running _ Hval)
    as (_ & _ & Hget).
  apply Hget. repeat constructor.
Defined.
